(** * Profiling facade: performance/pkg/profiles/profile.go

    A shallow embedding of the Go package [profiles].  The package is a thin
    coordinator: it sequences directory creation, file creation, activation
    of a profiling facility of the Go runtime and the propagation of errors.
    Every function is modelled as a state-passing computation over a
    [World] that holds the process-wide state the package touches: the
    global [runtime.MemProfileRate], the file system, the table of open
    [*os.File] handles, the singleton CPU profiler and tracer, and the
    history of calls made to host facilities. *)

From Stdlib Require Import ZArith Ascii.
From stdpp Require Import gmap strings list fin_maps.

Open Scope string_scope.
Open Scope list_scope.

(** ** Errors *)

(** Go's [error] values.  A nil error is [None : option error]. *)
Inductive error : Type :=
| HostError (msg : string)              (* returned by os, pprof, trace, fgprof *)
| Errorf (msg : string)                 (* errors.Errorf *)
| Wrapf (cause : error) (msg : string)  (* errors.Wrapf of a non-nil cause *)
| Multi (first second : error).         (* two errors merged into one *)

(** [errors.Errorf(format, args...)], the format already expanded. *)
Definition errors_Errorf (msg : string) : error := Errorf msg.

(** [errors.Wrapf(err, format, args...)]: nil stays nil. *)
Definition errors_Wrapf (err : option error) (msg : string) : option error :=
  match err with
  | None => None
  | Some e => Some (Wrapf e msg)
  end.

(** [carries e d]: the error [d] is [e] or is held inside [e]. *)
Fixpoint carries (e d : error) : Prop :=
  e = d \/
  match e with
  | Wrapf c _ => carries c d
  | Multi e1 e2 => carries e1 d \/ carries e2 d
  | _ => False
  end.

(** The text of an error, as [Error()] prints it. *)
Fixpoint error_message (e : error) : string :=
  match e with
  | HostError m => m
  | Errorf m => m
  | Wrapf c m => m +:+ ": " +:+ error_message c
  | Multi e1 e2 => error_message e1 +:+ "; " +:+ error_message e2
  end.

(** ** The world *)

(** An [*os.File] is named by the number of its handle. *)
Definition File := nat.

(** What a profile file holds: the package never looks at the bytes, only
    at which facility wrote. *)
Inductive Chunk := HeapSnapshot | CPUSamples | FGProfSamples | TraceEvents.

(** Calls to host facilities, in the order they are made. *)
Inductive Event :=
| EvMkdirAll (dir : string) (perm : Z)
| EvCreate (path : string)
| EvClose (f : File)
| EvWriteHeapProfile (f : File)
| EvStartCPUProfile (f : File)
| EvStopCPUProfile
| EvFGProfStart (f : File)
| EvFGProfStop (f : File)
| EvTraceStart (f : File)
| EvTraceStop.

Record World := mkWorld {
  MemProfileRate : Z;                 (* runtime.MemProfileRate *)
  dirs : gset string;                 (* directories that exist *)
  files : gmap string (list Chunk);   (* regular files and their content *)
  open_files : gmap nat string;       (* open handles and their path *)
  next_file : nat;                    (* next fresh handle *)
  cpu_profiling : option File;        (* built-in CPU profiler, if active *)
  tracing : option File;              (* execution tracer, if active *)
  fgprof_running : gset File;         (* fgprof sessions not yet stopped *)
  log : list Event                    (* history of host calls *)
}.

Definition set_MemProfileRate (r : Z) (w : World) : World :=
  mkWorld r (dirs w) (files w) (open_files w) (next_file w)
          (cpu_profiling w) (tracing w) (fgprof_running w) (log w).

Definition record (ev : Event) (w : World) : World :=
  mkWorld (MemProfileRate w) (dirs w) (files w) (open_files w) (next_file w)
          (cpu_profiling w) (tracing w) (fgprof_running w) (log w ++ [ev]).

Definition add_dir (d : string) (w : World) : World :=
  mkWorld (MemProfileRate w) ({[d]} ∪ dirs w) (files w) (open_files w)
          (next_file w) (cpu_profiling w) (tracing w) (fgprof_running w)
          (log w).

(** Make every directory of [ds]. *)
Definition add_dirs (ds : list string) (w : World) : World :=
  foldr add_dir w ds.

(** Create or truncate [path] and hand out a fresh handle on it. *)
Definition open_truncated (path : string) (w : World) : World :=
  mkWorld (MemProfileRate w) (dirs w) (<[path := []]> (files w))
          (<[next_file w := path]> (open_files w)) (S (next_file w))
          (cpu_profiling w) (tracing w) (fgprof_running w) (log w).

Definition release (f : File) (w : World) : World :=
  mkWorld (MemProfileRate w) (dirs w) (files w) (delete f (open_files w))
          (next_file w) (cpu_profiling w) (tracing w) (fgprof_running w)
          (log w).

(** Append to the file behind an open handle; a closed handle takes no data. *)
Definition append_chunk (f : File) (c : Chunk) (w : World) : World :=
  match open_files w !! f with
  | Some path =>
      mkWorld (MemProfileRate w) (dirs w)
              (alter (fun content => content ++ [c]) path (files w))
              (open_files w) (next_file w) (cpu_profiling w) (tracing w)
              (fgprof_running w) (log w)
  | None => w
  end.

Definition set_cpu_profiling (o : option File) (w : World) : World :=
  mkWorld (MemProfileRate w) (dirs w) (files w) (open_files w) (next_file w)
          o (tracing w) (fgprof_running w) (log w).

Definition set_tracing (o : option File) (w : World) : World :=
  mkWorld (MemProfileRate w) (dirs w) (files w) (open_files w) (next_file w)
          (cpu_profiling w) o (fgprof_running w) (log w).

Definition set_fgprof_running (s : gset File) (w : World) : World :=
  mkWorld (MemProfileRate w) (dirs w) (files w) (open_files w) (next_file w)
          (cpu_profiling w) (tracing w) s (log w).

(** ** Paths *)

(** The separator of path/filepath on Unix. *)
Definition is_separator (c : ascii) : bool := Ascii.eqb c "/"%char.

(** Walk [rest] with [seen] already read; [named] says that [seen] ends in
    an element name and not in a separator.  Every such [seen] that is
    followed by a separator names a directory above the end of the path. *)
Fixpoint ancestors_walk (seen : string) (named : bool) (rest : string)
  : list string :=
  match rest with
  | EmptyString => []
  | String c rest' =>
      (if is_separator c && named then [seen] else [])
      ++ ancestors_walk (seen +:+ String c EmptyString)
                        (negb (is_separator c)) rest'
  end.

(** The directories on the way down to [path], topmost first, in the order
    [os.MkdirAll] makes them: "a/b/c" gives "a" and "a/b". *)
Definition path_ancestors (path : string) : list string :=
  ancestors_walk "" false path.

(** The host calls made between [w] and a later world [w']. *)
Definition events_since (w w' : World) : list Event :=
  drop (length (log w)) (log w').

(** The paths handed to [os.Create] in a run of host calls. *)
Definition created_paths (evs : list Event) : list string :=
  omap (fun ev => match ev with EvCreate p => Some p | _ => None end) evs.

(** The handles [Close] was called on in a run of host calls. *)
Definition closed_files (evs : list Event) : list File :=
  omap (fun ev => match ev with EvClose f => Some f | _ => None end) evs.

(** [same_but_rate w w']: the world [w'] differs from [w] in
    runtime.MemProfileRate at most, and no host call was made in between. *)
Definition same_but_rate (w w' : World) : Prop :=
  events_since w w' = []
  /\ dirs w' = dirs w /\ files w' = files w
  /\ open_files w' = open_files w /\ next_file w' = next_file w
  /\ cpu_profiling w' = cpu_profiling w /\ tracing w' = tracing w
  /\ fgprof_running w' = fgprof_running w
  /\ log w' = log w.

(** ** Computations *)

(** Go statements run against the world and yield a value. *)
Definition M (A : Type) : Type := World -> A * World.

Definition ret {A} (a : A) : M A := fun w => (a, w).

Definition bind {A B} (m : M A) (k : A -> M B) : M B :=
  fun w => let (a, w') := m w in k a w'.

Notation "'let*' x ':=' c 'in' k" := (bind c (fun x => k))
  (at level 10, x pattern, c at level 100, k at level 200).

(** The value a computation yields from [w], and the world it leaves. *)
Definition result {A} (m : M A) (w : World) : A := fst (m w).
Definition after {A} (m : M A) (w : World) : World := snd (m w).

(** [m] makes exactly one host call, [ev], whatever the world. *)
Definition logs_one {A} (m : M A) (ev : Event) : Prop :=
  forall w, log (after m w) = log w ++ [ev].

(** A call that may never return: [None] when the calling goroutine blocks
    for good, so that nothing after the call is run. *)
Definition Blocking (A : Type) : Type := World -> option (A * World).

(** A computation of [M] is a call that always returns. *)
Definition returns {A} (m : M A) : Blocking A := fun w => Some (m w).

(** [P] holds of the world a call leaves, if the call returns at all. *)
Definition whenever_returns {A} (c : Blocking A) (w : World)
           (P : World -> Prop) : Prop :=
  match c w with
  | Some (_, w') => P w'
  | None => True
  end.

(** A [func() error] value, such as the stop function of a session. *)
Definition Closer : Type := Blocking (option error).

(** ** The host: os, path/filepath, runtime/pprof, runtime/trace, fgprof *)

(** Whether a host call fails is decided outside the package.  A [Host]
    fixes, for every call and every world, the error the call returns
    ([None] when it succeeds), the result of [filepath.Join], and how many
    of the directories above its argument a failing [os.MkdirAll] had made
    when it gave up. *)
Record Host := mkHost {
  filepath_Join : string -> string -> string;
  MkdirAll_err : World -> string -> option error;
  MkdirAll_made : World -> string -> nat;
  Create_err : World -> string -> option error;
  Close_err : World -> File -> option error;
  WriteHeapProfile_err : World -> File -> option error;
  StartCPUProfile_err : World -> File -> option error;
  trace_Start_err : World -> File -> option error;
  fgprof_stop_err : World -> File -> option error
}.

(** [os.ModePerm] = 0o777. *)
Definition os_ModePerm : Z := 511.

(** [fgprof.Format]. *)
Inductive fgprof_Format := FormatFolded | FormatPprof.

Section Facilities.
Variable h : Host.

(** [os.MkdirAll(dir, perm)]: the directories above [dir] are made from the
    top down, then [dir] itself.  On success all of them exist; a failure
    leaves behind those made before the call that failed. *)
Definition os_MkdirAll (dir : string) (perm : Z) : M (option error) :=
  fun w =>
    let w := record (EvMkdirAll dir perm) w in
    match MkdirAll_err h w dir with
    | Some e =>
        (Some e, add_dirs (take (MkdirAll_made h w dir) (path_ancestors dir)) w)
    | None => (None, add_dir dir (add_dirs (path_ancestors dir) w))
    end.

(** [os.Create(path)]: the file is created, or truncated if it exists. *)
Definition os_Create (path : string) : M (File + error) :=
  fun w =>
    let w := record (EvCreate path) w in
    match Create_err h w path with
    | Some e => (inr e, w)
    | None => (inl (next_file w), open_truncated path w)
    end.

(** [f.Close()]: the handle is given up whether or not an error is
    reported. *)
Definition File_Close (f : File) : M (option error) :=
  fun w =>
    let w := record (EvClose f) w in
    (Close_err h w f, release f w).

(** [pprof.WriteHeapProfile(f)]. *)
Definition pprof_WriteHeapProfile (f : File) : M (option error) :=
  fun w =>
    let w := record (EvWriteHeapProfile f) w in
    match WriteHeapProfile_err h w f with
    | Some e => (Some e, w)
    | None => (None, append_chunk f HeapSnapshot w)
    end.

(** [pprof.StartCPUProfile(f)]. *)
Definition pprof_StartCPUProfile (f : File) : M (option error) :=
  fun w =>
    let w := record (EvStartCPUProfile f) w in
    match StartCPUProfile_err h w f with
    | Some e => (Some e, w)
    | None => (None, set_cpu_profiling (Some f) w)
    end.

(** [pprof.StopCPUProfile()]: flushes the samples and detaches. *)
Definition pprof_StopCPUProfile : M unit :=
  fun w =>
    let w := record EvStopCPUProfile w in
    match cpu_profiling w with
    | Some f => (tt, set_cpu_profiling None (append_chunk f CPUSamples w))
    | None => (tt, w)
    end.

(** The function [fgprof.Start] returns: signal the sampling goroutine to
    stop, then export.  The goroutine takes one signal and exits, whether or
    not the export succeeds; a call made after that waits for a receiver
    that is gone and never returns. *)
Definition fgprof_stop (f : File) : Closer :=
  fun w =>
    if decide (f ∈ fgprof_running w) then
      let w := set_fgprof_running (fgprof_running w ∖ {[f]})
                                  (record (EvFGProfStop f) w) in
      match fgprof_stop_err h w f with
      | Some e => Some (Some e, w)
      | None => Some (None, append_chunk f FGProfSamples w)
      end
    else None.

(** [fgprof.Start(f, format)]: it starts the sampling goroutine and has no
    error result. *)
Definition fgprof_Start (f : File) (format : fgprof_Format) : M Closer :=
  fun w =>
    (fgprof_stop f,
     set_fgprof_running ({[f]} ∪ fgprof_running w) (record (EvFGProfStart f) w)).

(** [trace.Start(f)]. *)
Definition trace_Start (f : File) : M (option error) :=
  fun w =>
    let w := record (EvTraceStart f) w in
    match trace_Start_err h w f with
    | Some e => (Some e, w)
    | None => (None, set_tracing (Some f) w)
    end.

(** [trace.Stop()]: flushes the buffered events and detaches. *)
Definition trace_Stop : M unit :=
  fun w =>
    let w := record EvTraceStop w in
    match tracing w with
    | Some f => (tt, set_tracing None (append_chunk f TraceEvents w))
    | None => (tt, w)
    end.

End Facilities.

(** Modelled from the spec: [errcapture.Do] of core/pkg/errcapture, whose
    source is not part of the package.  It runs [doer]; a nil result leaves
    [*err] as it is.  A failure of [doer] is wrapped with the given text; it
    becomes the error when [*err] was nil, and is attached after [*err]
    otherwise, so that the earlier error keeps priority and the later one is
    not dropped.  The spec words what becomes of a close error that follows
    an earlier error in two ways, once for Heap (it is surfaced by wrapping)
    and once for the fgprof stop function (the earlier error has priority);
    both calls go through this one function, and the model follows the
    sentence on Heap and the rule that no error is swallowed. *)
Definition errcapture_Do (err : option error) (doer : M (option error))
           (format : string) : M (option error) :=
  let* derr := doer in
  match derr with
  | None => ret err
  | Some d =>
      match err with
      | None => ret (Some (Wrapf d format))
      | Some e => ret (Some (Multi e (Wrapf d format)))
      end
  end.

(** ** The package *)

Section Profiles.
Variable h : Host.

(** [func StopHeapRecording()] *)
Definition StopHeapRecording : M unit :=
  fun w => (tt, set_MemProfileRate 0 w).

(** [func StartHeapRecording(everyAlloc bool)] *)
Definition StartHeapRecording (everyAlloc : bool) : M unit :=
  fun w =>
    if everyAlloc then (tt, set_MemProfileRate 1 w)
    else (tt, set_MemProfileRate (512 * 1024) w).

(** [func Heap(dir string) (err error)].  The deferred [errcapture.Do]
    runs after the operand of [return] has been stored in [err]. *)
Definition Heap (dir : string) : M (option error) :=
  let* err := os_MkdirAll h dir os_ModePerm in
  match err with
  | Some e => ret (Some e)
  | None =>
      let* r := os_Create h (filepath_Join h dir "mem.pprof") in
      match r with
      | inr e => ret (Some e)
      | inl f =>
          let* err := pprof_WriteHeapProfile h f in
          errcapture_Do err (File_Close h f) "close"
      end
  end.

(** [type CPUType string] and its two constants. *)
Definition CPUType := string.
Definition CPUTypeBuiltIn : CPUType := "built-in".
Definition CPUTypeFGProf : CPUType := "fgprof".

(** The arm a [switch typ] with the cases [CPUTypeBuiltIn] and
    [CPUTypeFGProf] takes. *)
Inductive CPUCase := CaseBuiltIn | CaseFGProf | CaseOther.

Definition switch_typ (typ : CPUType) : CPUCase :=
  if decide (typ = CPUTypeBuiltIn) then CaseBuiltIn
  else if decide (typ = CPUTypeFGProf) then CaseFGProf
  else CaseOther.

(** The file name that goes with each of the two backends. *)
Definition backend_file (typ : CPUType) (fileName : string) : Prop :=
  typ = CPUTypeBuiltIn /\ fileName = "cpu.pprof"
  \/ typ = CPUTypeFGProf /\ fileName = "cpu.fgprof.pprof".

(** The stop function of a built-in session. *)
Definition closeFn_BuiltIn (dir fileName : string) (f : File)
  : M (option error) :=
  let* _ := pprof_StopCPUProfile in
  let* cerr := File_Close h f in
  ret (errors_Wrapf cerr ("close " +:+ filepath_Join h dir fileName)).

(** The stop function of an fgprof session: the close is deferred, so it
    runs after [closeFGProfFn] has returned into [ferr], and not at all
    when [closeFGProfFn] does not return. *)
Definition closeFn_FGProf (dir fileName : string) (f : File)
           (closeFGProfFn : Closer) : Closer :=
  fun w =>
    match closeFGProfFn w with
    | None => None
    | Some (ferr, w1) =>
        Some (errcapture_Do ferr (File_Close h f)
                            ("close " +:+ filepath_Join h dir fileName) w1)
    end.

(** [func StartCPU(dir string, typ CPUType) (closeFn func() error, err error)] *)
Definition StartCPU (dir : string) (typ : CPUType)
  : M (option Closer * option error) :=
  match
    match switch_typ typ with
    | CaseBuiltIn => inl "cpu.pprof"
    | CaseFGProf => inl "cpu.fgprof.pprof"
    | CaseOther => inr (errors_Errorf ("unknown CPU profile type " +:+ typ))
    end
  with
  | inr e => ret (None, Some e)
  | inl fileName =>
      let* err := os_MkdirAll h dir os_ModePerm in
      match err with
      | Some e => ret (None, Some e)
      | None =>
          let* r := os_Create h (filepath_Join h dir fileName) in
          match r with
          | inr e => ret (None, Some e)
          | inl f =>
              match switch_typ typ with
              | CaseBuiltIn =>
                  let* err := pprof_StartCPUProfile h f in
                  match err with
                  | Some e =>
                      let* err :=
                        errcapture_Do (Some e) (File_Close h f)
                          ("close " +:+ filepath_Join h dir fileName) in
                      ret (None, err)
                  | None =>
                      ret (Some (returns (closeFn_BuiltIn dir fileName f)),
                           None)
                  end
              | CaseFGProf =>
                  let* closeFGProfFn := fgprof_Start h f FormatPprof in
                  ret (Some (closeFn_FGProf dir fileName f closeFGProfFn), None)
              | CaseOther =>
                  (* the second switch has no default arm: closeFn is
                     still nil *)
                  ret (None, None)
              end
          end
      end
  end.

(** The stop function of a trace session. *)
Definition closeFn_Trace (dir fileName : string) (f : File)
  : M (option error) :=
  let* _ := trace_Stop in
  let* cerr := File_Close h f in
  ret (errors_Wrapf cerr ("close " +:+ filepath_Join h dir fileName)).

(** [func StartTrace(dir string) (closeFn func() error, err error)] *)
Definition StartTrace (dir : string) : M (option Closer * option error) :=
  let fileName := "trace.out" in
  let* err := os_MkdirAll h dir os_ModePerm in
  match err with
  | Some e => ret (None, Some e)
  | None =>
      let* r := os_Create h (filepath_Join h dir fileName) in
      match r with
      | inr e => ret (None, Some e)
      | inl f =>
          let* err := trace_Start h f in
          match err with
          | Some e => ret (None, Some e)
          | None => ret (Some (returns (closeFn_Trace dir fileName f)), None)
          end
      end
  end.

End Profiles.

(** ** Hosts to run the package on *)

(** Elements joined with a single separator; [filepath.Join] gives this on
    clean, non-empty elements. *)
Definition join_slash (dir name : string) : string := dir +:+ "/" +:+ name.

(** A host on which the file system never fails and the two singleton
    facilities of the runtime refuse a second session. *)
Definition go_host : Host :=
  mkHost join_slash
         (fun _ _ => None) (fun _ _ => 0)
         (fun _ _ => None) (fun _ _ => None) (fun _ _ => None)
         (fun w _ => match cpu_profiling w with
                     | Some _ => Some (HostError "cpu profiling already in use")
                     | None => None
                     end)
         (fun w _ => match tracing w with
                     | Some _ => Some (HostError "trace is already enabled")
                     | None => None
                     end)
         (fun _ _ => None).

(** A host whose disk fails every write, export and close. *)
Definition failing_disk_host : Host :=
  mkHost join_slash
         (fun _ _ => None) (fun _ _ => 0) (fun _ _ => None)
         (fun _ _ => Some (HostError "close: input/output error"))
         (fun _ _ => Some (HostError "write: no space left on device"))
         (StartCPUProfile_err go_host)
         (trace_Start_err go_host)
         (fun _ _ => Some (HostError "export: no space left on device")).

(** A freshly started process in an empty file system. *)
Definition world0 : World :=
  mkWorld (512 * 1024) ∅ ∅ ∅ 3 None None ∅ [].

(** A process whose built-in CPU profiler and tracer are already running on
    handle 3. *)
Definition busy_world : World :=
  mkWorld (512 * 1024) {["prof"]} {["prof/old.pprof" := []]}
          {[3%nat := "prof/old.pprof"]} 4 (Some 3%nat) (Some 3%nat) ∅ [].


(** A host on a read-only file system: no directory can be made. *)
Definition readonly_host : Host :=
  mkHost join_slash
         (fun _ _ => Some (HostError "mkdir: read-only file system"))
         (fun _ _ => 0)
         (fun _ _ => None) (fun _ _ => None) (fun _ _ => None)
         (StartCPUProfile_err go_host) (trace_Start_err go_host)
         (fun _ _ => None).

(** A host that has run out of file descriptors: no file can be opened. *)
Definition no_create_host : Host :=
  mkHost join_slash
         (fun _ _ => None) (fun _ _ => 0)
         (fun _ _ => Some (HostError "open: too many open files"))
         (fun _ _ => None) (fun _ _ => None)
         (StartCPUProfile_err go_host) (trace_Start_err go_host)
         (fun _ _ => None).

(** A host on which the quota runs out after one directory: a failing
    [os.MkdirAll] has made the topmost directory by then. *)
Definition quota_host : Host :=
  mkHost join_slash
         (fun _ _ => Some (HostError "mkdir: disk quota exceeded"))
         (fun _ _ => 1)
         (fun _ _ => None) (fun _ _ => None) (fun _ _ => None)
         (StartCPUProfile_err go_host) (trace_Start_err go_host)
         (fun _ _ => None).

(** ** Conditions on worlds and hosts *)

(** The handle [os.Create] would hand out next is not in use. *)
Definition fresh_handle (w : World) : Prop :=
  open_files w !! next_file w = None.

(** No directory, create, write or close call fails on [h]. *)
Definition healthy_disk (h : Host) : Prop :=
  forall w,
    (forall d, MkdirAll_err h w d = None)
    /\ (forall p, Create_err h w p = None)
    /\ (forall f, WriteHeapProfile_err h w f = None)
    /\ (forall f, Close_err h w f = None).

(** [m] leaves the part of the world that [get] reads as it found it. *)
Definition preserves {B A} (get : World -> B) (m : M A) : Prop :=
  forall w, get (after m w) = get w.

(** [get] reads a part of the world that the file system calls, the
    history and writes to files do not reach. *)
Definition fs_blind {B} (get : World -> B) : Prop :=
  (forall ev w, get (record ev w) = get w)
  /\ (forall d w, get (add_dir d w) = get w)
  /\ (forall p w, get (open_truncated p w) = get w)
  /\ (forall f w, get (release f w) = get w)
  /\ (forall f c w, get (append_chunk f c w) = get w).

(** [get] does not depend on which fgprof sessions are running. *)
Definition fgprof_blind {B} (get : World -> B) : Prop :=
  forall s w, get (set_fgprof_running s w) = get w.

(** [get] does not depend on the built-in CPU profiler being attached. *)
Definition cpu_blind {B} (get : World -> B) : Prop :=
  forall o w, get (set_cpu_profiling o w) = get w.

(** [get] does not depend on the tracer being attached. *)
Definition trace_blind {B} (get : World -> B) : Prop :=
  forall o w, get (set_tracing o w) = get w.

(** ** Host calls, one at a time *)

(** Each host call adds exactly one entry to the history; the lemmas below
    say which, and what else of the world the call leaves alone. *)

Create HintDb host_log.

Lemma events_since_app (w w' : World) (evs : list Event) :
  log w' = log w ++ evs -> events_since w w' = evs.
Proof. intros E. unfold events_since. rewrite E. apply drop_app_length. Qed.

Lemma events_since_refl (w : World) : events_since w w = [].
Proof. apply events_since_app. by rewrite app_nil_r. Qed.

Lemma logs_one_run {A} (m : M A) (ev : Event) (w w1 : World) (r : A) :
  m w = (r, w1) -> logs_one m ev -> log w1 = log w ++ [ev].
Proof. intros E L. specialize (L w). unfold after in L. by rewrite E in L. Qed.

Lemma log_append_chunk f c (w : World) : log (append_chunk f c w) = log w.
Proof. unfold append_chunk. by case_match. Qed.

Lemma open_files_append_chunk f c (w : World) :
  open_files (append_chunk f c w) = open_files w.
Proof. unfold append_chunk. by case_match. Qed.

Lemma dirs_append_chunk f c (w : World) : dirs (append_chunk f c w) = dirs w.
Proof. unfold append_chunk. by case_match. Qed.

(** Making directories changes the set of directories and nothing else. *)
Lemma add_dirs_blind {B} (get : World -> B) (ds : list string) (w : World) :
  (forall d w', get (add_dir d w') = get w') -> get (add_dirs ds w) = get w.
Proof.
  intros Hget. induction ds as [|d ds IH]; [done |].
  simpl. by rewrite Hget.
Qed.

Lemma files_add_dirs ds (w : World) : files (add_dirs ds w) = files w.
Proof. by apply add_dirs_blind. Qed.

Lemma open_files_add_dirs ds (w : World) :
  open_files (add_dirs ds w) = open_files w.
Proof. by apply add_dirs_blind. Qed.

Lemma next_file_add_dirs ds (w : World) :
  next_file (add_dirs ds w) = next_file w.
Proof. by apply add_dirs_blind. Qed.

Lemma cpu_profiling_add_dirs ds (w : World) :
  cpu_profiling (add_dirs ds w) = cpu_profiling w.
Proof. by apply add_dirs_blind. Qed.

Lemma tracing_add_dirs ds (w : World) : tracing (add_dirs ds w) = tracing w.
Proof. by apply add_dirs_blind. Qed.

Lemma fgprof_running_add_dirs ds (w : World) :
  fgprof_running (add_dirs ds w) = fgprof_running w.
Proof. by apply add_dirs_blind. Qed.

Lemma log_add_dirs ds (w : World) : log (add_dirs ds w) = log w.
Proof. by apply add_dirs_blind. Qed.

Lemma dirs_add_dirs (ds : list string) (w : World) :
  dirs (add_dirs ds w) = list_to_set ds ∪ dirs w.
Proof.
  induction ds as [|d ds IH]; simpl.
  - by rewrite (left_id_L ∅ (∪)).
  - by rewrite IH, (assoc_L (∪)).
Qed.

Section Steps.
Variable h : Host.

(** *** os.MkdirAll *)

Lemma os_MkdirAll_log dir perm :
  logs_one (os_MkdirAll h dir perm) (EvMkdirAll dir perm).
Proof.
  intros w. unfold after, os_MkdirAll.
  case_match; simpl; by rewrite (add_dirs_blind log).
Qed.

Lemma os_MkdirAll_ok dir perm (w w1 : World) :
  os_MkdirAll h dir perm w = (None, w1) ->
  dirs w1 = {[dir]} ∪ (list_to_set (path_ancestors dir) ∪ dirs w)
  /\ files w1 = files w /\ open_files w1 = open_files w.
Proof.
  unfold os_MkdirAll. intros E. case_match; simplify_eq. simpl.
  by rewrite dirs_add_dirs, (add_dirs_blind files),
    (add_dirs_blind open_files).
Qed.

Lemma os_MkdirAll_fail dir perm (w w1 : World) e :
  os_MkdirAll h dir perm w = (Some e, w1) ->
  (dirs w ⊆ dirs w1 /\ dirs w1 ⊆ list_to_set (path_ancestors dir) ∪ dirs w)
  /\ files w1 = files w /\ open_files w1 = open_files w.
Proof.
  unfold os_MkdirAll. intros E. case_match; simplify_eq.
  rewrite dirs_add_dirs, (add_dirs_blind files), (add_dirs_blind open_files)
    by done.
  split; [| done]. simpl. split; [apply union_subseteq_r |].
  apply union_mono_r. intros d Hd. apply elem_of_list_to_set in Hd.
  apply elem_of_list_to_set. by apply (subseteq_take _ _ d) in Hd.
Qed.

(** *** os.Create *)

Lemma os_Create_log path : logs_one (os_Create h path) (EvCreate path).
Proof. intros w. unfold after, os_Create. by case_match. Qed.

Lemma os_Create_ok path (w w1 : World) f :
  os_Create h path w = (inl f, w1) ->
  dirs w1 = dirs w /\ files w1 = <[path := []]> (files w)
  /\ open_files w1 = <[f := path]> (open_files w).
Proof. unfold os_Create. intros E. by case_match; simplify_eq. Qed.

Lemma os_Create_fail path (w w1 : World) e :
  os_Create h path w = (inr e, w1) ->
  dirs w1 = dirs w /\ files w1 = files w /\ open_files w1 = open_files w.
Proof. unfold os_Create. intros E. by case_match; simplify_eq. Qed.

(** *** File.Close *)

Lemma File_Close_log f : logs_one (File_Close h f) (EvClose f).
Proof. by intros w. Qed.

Lemma File_Close_frame f (w w1 : World) r :
  File_Close h f w = (r, w1) ->
  dirs w1 = dirs w /\ files w1 = files w
  /\ open_files w1 = delete f (open_files w).
Proof. unfold File_Close. intros E. by simplify_eq. Qed.

(** *** pprof.WriteHeapProfile *)

Lemma pprof_WriteHeapProfile_log f :
  logs_one (pprof_WriteHeapProfile h f) (EvWriteHeapProfile f).
Proof.
  intros w. unfold after, pprof_WriteHeapProfile.
  case_match; [done | apply log_append_chunk].
Qed.

Lemma pprof_WriteHeapProfile_frame f (w w1 : World) r :
  pprof_WriteHeapProfile h f w = (r, w1) ->
  dirs w1 = dirs w /\ open_files w1 = open_files w.
Proof.
  unfold pprof_WriteHeapProfile. intros E.
  case_match; simplify_eq; [done |].
  by rewrite dirs_append_chunk, open_files_append_chunk.
Qed.

Lemma pprof_WriteHeapProfile_ok f path (w w1 : World) :
  pprof_WriteHeapProfile h f w = (None, w1) ->
  open_files w !! f = Some path ->
  files w1 = alter (fun content => content ++ [HeapSnapshot]) path (files w).
Proof.
  unfold pprof_WriteHeapProfile, append_chunk. intros E Hf.
  case_match; simplify_eq. simpl. by rewrite Hf.
Qed.

(** *** pprof.StartCPUProfile *)

Lemma pprof_StartCPUProfile_log f :
  logs_one (pprof_StartCPUProfile h f) (EvStartCPUProfile f).
Proof. intros w. unfold after, pprof_StartCPUProfile. by case_match. Qed.

Lemma pprof_StartCPUProfile_frame f (w w1 : World) r :
  pprof_StartCPUProfile h f w = (r, w1) ->
  dirs w1 = dirs w /\ files w1 = files w /\ open_files w1 = open_files w.
Proof. unfold pprof_StartCPUProfile. intros E. by case_match; simplify_eq. Qed.

(** *** fgprof.Start and the function it returns *)

Lemma fgprof_Start_log f format :
  logs_one (fgprof_Start h f format) (EvFGProfStart f).
Proof. by intros w. Qed.

Lemma fgprof_stop_log f (w w1 : World) r :
  fgprof_stop h f w = Some (r, w1) -> log w1 = log w ++ [EvFGProfStop f].
Proof.
  unfold fgprof_stop. intros E. case_decide; [| done].
  case_match; simplify_eq; [done | by rewrite log_append_chunk].
Qed.

(** A session that is not running cannot be stopped: the call blocks. *)
Lemma fgprof_stop_blocks f (w : World) :
  f ∉ fgprof_running w -> fgprof_stop h f w = None.
Proof. intros Hf. unfold fgprof_stop. by rewrite decide_False. Qed.

(** Once the stop callback has returned, the session is not running. *)
Lemma fgprof_stop_stops f (w w1 : World) r :
  fgprof_stop h f w = Some (r, w1) -> f ∉ fgprof_running w1.
Proof.
  unfold fgprof_stop. intros E. case_decide; [| done].
  assert (Hgone : f ∉ fgprof_running w ∖ {[f]}).
  { intros [_ Hf]%elem_of_difference. by apply Hf, elem_of_singleton. }
  case_match; simplify_eq; [done |].
  unfold append_chunk. by case_match.
Qed.

(** *** trace.Start *)

Lemma trace_Start_log f : logs_one (trace_Start h f) (EvTraceStart f).
Proof. intros w. unfold after, trace_Start. by case_match. Qed.

Lemma trace_Start_frame f (w w1 : World) r :
  trace_Start h f w = (r, w1) ->
  dirs w1 = dirs w /\ files w1 = files w /\ open_files w1 = open_files w.
Proof. unfold trace_Start. intros E. by case_match; simplify_eq. Qed.

End Steps.

#[export] Hint Resolve os_MkdirAll_log os_Create_log File_Close_log
  pprof_WriteHeapProfile_log pprof_StartCPUProfile_log fgprof_Start_log
  trace_Start_log : host_log.

(** Unfold the monadic plumbing once the host calls have been replaced by
    their results. *)
Ltac run := unfold bind, ret; cbv beta iota.

(** For every host call [m w = (r, w1)] among the hypotheses, note what it
    added to the history. *)
Ltac note_logs :=
  repeat match goal with
  | H : ?m ?w = (_, ?w1) |- _ =>
      lazymatch goal with
      | _ : log w1 = _ |- _ => fail
      | _ =>
          let L := fresh "L" in
          pose proof H as L;
          eapply logs_one_run in L; [| solve [eauto with host_log]]
      end
  | H : fgprof_stop _ _ ?w = Some (_, ?w1) |- _ =>
      lazymatch goal with
      | _ : log w1 = _ |- _ => fail
      | _ =>
          let L := fresh "L" in
          pose proof H as L; apply fgprof_stop_log in L
      end
  end.

(** Rewrite the history of the last world down to that of the first. *)
Ltac logs :=
  repeat match goal with
  | H : log ?w' = _ |- context [log ?w'] => rewrite H
  end; rewrite <- ?app_assoc; reflexivity.

(** Settle [events_since w w' = [ev1; ...; evn]] from the host calls among
    the hypotheses. *)
Ltac history := note_logs; apply events_since_app; logs.

(** Read a field of a world built by the setters, and nothing more. *)
Tactic Notation "fields" :=
  repeat
    (progress
       (cbn [MemProfileRate dirs files open_files next_file cpu_profiling
             tracing fgprof_running log record add_dir open_truncated release
             set_cpu_profiling set_tracing set_fgprof_running
             set_MemProfileRate];
        rewrite ?files_add_dirs, ?open_files_add_dirs, ?next_file_add_dirs,
          ?cpu_profiling_add_dirs, ?tracing_add_dirs, ?fgprof_running_add_dirs,
          ?log_add_dirs)).

Tactic Notation "fields" "in" hyp(H) :=
  repeat
    (progress
       (cbn [MemProfileRate dirs files open_files next_file cpu_profiling
             tracing fgprof_running log record add_dir open_truncated release
             set_cpu_profiling set_tracing set_fgprof_running
             set_MemProfileRate] in H;
        rewrite ?files_add_dirs, ?open_files_add_dirs, ?next_file_add_dirs,
          ?cpu_profiling_add_dirs, ?tracing_add_dirs, ?fgprof_running_add_dirs,
          ?log_add_dirs in H)).

(** ** Errors held in errors *)

Lemma carries_refl (e : error) : carries e e.
Proof. destruct e; simpl; by left. Qed.

Lemma carries_Multi_l (e1 e2 d : error) :
  carries e1 d -> carries (Multi e1 e2) d.
Proof. simpl. tauto. Qed.




(** What the deferred capture leaves in [err], by the outcome of [doer]. *)
Lemma errcapture_Do_run (err derr : option error) (doer : M (option error))
      (format : string) (w w1 : World) :
  doer w = (derr, w1) ->
  errcapture_Do err doer format w =
    (match err, derr with
     | None, None => None
     | None, Some d => Some (Wrapf d format)
     | Some e, None => Some e
     | Some e, Some d => Some (Multi e (Wrapf d format))
     end, w1).
Proof. intros E. unfold errcapture_Do. run. rewrite E. by destruct err, derr. Qed.

(** The deferred capture never turns an error into nil. *)
Lemma errcapture_Do_keeps_error (e : error) (doer : M (option error))
      (format : string) (w : World) :
  result (errcapture_Do (Some e) doer format) w <> None.
Proof.
  unfold result. destruct (doer w) as [derr w1] eqn:E.
  rewrite (errcapture_Do_run _ _ _ _ _ _ E). by destruct derr.
Qed.

(** ** The paths through the package *)

Lemma switch_typ_BuiltIn : switch_typ CPUTypeBuiltIn = CaseBuiltIn.
Proof. reflexivity. Qed.

Lemma switch_typ_FGProf : switch_typ CPUTypeFGProf = CaseFGProf.
Proof. reflexivity. Qed.

Lemma switch_typ_other (typ : CPUType) :
  typ <> CPUTypeBuiltIn -> typ <> CPUTypeFGProf -> switch_typ typ = CaseOther.
Proof. intros H1 H2. unfold switch_typ. by rewrite !decide_False. Qed.

Section Paths.
Variable h : Host.
Variable dir : string.

Lemma Heap_run (w w1 w2 w3 w4 : World) (f : File) (werr cerr : option error) :
  os_MkdirAll h dir os_ModePerm w = (None, w1) ->
  os_Create h (filepath_Join h dir "mem.pprof") w1 = (inl f, w2) ->
  pprof_WriteHeapProfile h f w2 = (werr, w3) ->
  File_Close h f w3 = (cerr, w4) ->
  Heap h dir w =
    (match werr, cerr with
     | None, None => None
     | None, Some c => Some (Wrapf c "close")
     | Some e, None => Some e
     | Some e, Some c => Some (Multi e (Wrapf c "close"))
     end, w4).
Proof.
  intros Hmk Hcr Hwr Hcl. unfold Heap. run. rewrite Hmk. run. rewrite Hcr.
  run. rewrite Hwr. apply errcapture_Do_run, Hcl.
Qed.

Lemma StartCPU_run_unknown (typ : CPUType) (w : World) :
  typ <> CPUTypeBuiltIn -> typ <> CPUTypeFGProf ->
  StartCPU h dir typ w =
    ((None, Some (Errorf ("unknown CPU profile type " +:+ typ))), w).
Proof. intros H1 H2. unfold StartCPU. by rewrite switch_typ_other. Qed.

Lemma StartCPU_run_mkdir_fails (typ : CPUType) (fileName : string)
      (w w1 : World) (e : error) :
  backend_file typ fileName ->
  os_MkdirAll h dir os_ModePerm w = (Some e, w1) ->
  StartCPU h dir typ w = ((None, Some e), w1).
Proof.
  intros [[-> _] | [-> _]] Hmk; unfold StartCPU; simpl; run; by rewrite Hmk.
Qed.

Lemma StartCPU_run_create_fails (typ : CPUType) (fileName : string)
      (w w1 w2 : World) (e : error) :
  backend_file typ fileName ->
  os_MkdirAll h dir os_ModePerm w = (None, w1) ->
  os_Create h (filepath_Join h dir fileName) w1 = (inr e, w2) ->
  StartCPU h dir typ w = ((None, Some e), w2).
Proof.
  intros [[-> ->] | [-> ->]] Hmk Hcr; unfold StartCPU; simpl; run;
    rewrite Hmk; run; by rewrite Hcr.
Qed.

Lemma StartCPU_run_builtin_refused (w w1 w2 w3 w4 : World) (f : File)
      (e : error) (cerr : option error) :
  os_MkdirAll h dir os_ModePerm w = (None, w1) ->
  os_Create h (filepath_Join h dir "cpu.pprof") w1 = (inl f, w2) ->
  pprof_StartCPUProfile h f w2 = (Some e, w3) ->
  File_Close h f w3 = (cerr, w4) ->
  StartCPU h dir CPUTypeBuiltIn w =
    ((None,
      match cerr with
      | None => Some e
      | Some c =>
          Some (Multi e
                  (Wrapf c ("close " +:+ filepath_Join h dir "cpu.pprof")))
      end), w4).
Proof.
  intros Hmk Hcr Hat Hcl. unfold StartCPU. rewrite switch_typ_BuiltIn. run.
  rewrite Hmk. run. rewrite Hcr. run. rewrite Hat. run.
  by rewrite (errcapture_Do_run _ _ _ _ _ _ Hcl).
Qed.

Lemma StartCPU_run_builtin (w w1 w2 w3 : World) (f : File) :
  os_MkdirAll h dir os_ModePerm w = (None, w1) ->
  os_Create h (filepath_Join h dir "cpu.pprof") w1 = (inl f, w2) ->
  pprof_StartCPUProfile h f w2 = (None, w3) ->
  StartCPU h dir CPUTypeBuiltIn w =
    ((Some (returns (closeFn_BuiltIn h dir "cpu.pprof" f)), None), w3).
Proof.
  intros Hmk Hcr Hat. unfold StartCPU. rewrite switch_typ_BuiltIn. run.
  rewrite Hmk. run. rewrite Hcr. run. by rewrite Hat.
Qed.

Lemma StartCPU_run_fgprof (w w1 w2 : World) (f : File) :
  os_MkdirAll h dir os_ModePerm w = (None, w1) ->
  os_Create h (filepath_Join h dir "cpu.fgprof.pprof") w1 = (inl f, w2) ->
  StartCPU h dir CPUTypeFGProf w =
    ((Some (closeFn_FGProf h dir "cpu.fgprof.pprof" f (fgprof_stop h f)),
      None),
     after (fgprof_Start h f FormatPprof) w2).
Proof.
  intros Hmk Hcr. unfold StartCPU. rewrite switch_typ_FGProf. run.
  rewrite Hmk. run. by rewrite Hcr.
Qed.

Lemma closeFn_FGProf_run (fileName : string) (f : File) (w w1 w2 : World)
      (ferr cerr : option error) :
  fgprof_stop h f w = Some (ferr, w1) ->
  File_Close h f w1 = (cerr, w2) ->
  closeFn_FGProf h dir fileName f (fgprof_stop h f) w =
    Some (match ferr, cerr with
          | None, None => None
          | None, Some c =>
              Some (Wrapf c ("close " +:+ filepath_Join h dir fileName))
          | Some e, None => Some e
          | Some e, Some c =>
              Some (Multi e
                      (Wrapf c ("close " +:+ filepath_Join h dir fileName)))
          end, w2).
Proof.
  intros Hfl Hcl. unfold closeFn_FGProf. rewrite Hfl.
  by rewrite (errcapture_Do_run _ _ _ _ _ _ Hcl).
Qed.

(** The stop function of an fgprof session blocks when the session is not
    running: nothing is closed. *)
Lemma closeFn_FGProf_blocks (fileName : string) (f : File) (w : World) :
  f ∉ fgprof_running w ->
  closeFn_FGProf h dir fileName f (fgprof_stop h f) w = None.
Proof. intros Hf. unfold closeFn_FGProf. by rewrite fgprof_stop_blocks. Qed.

Lemma StartTrace_run_refused (w w1 w2 w3 : World) (f : File) (e : error) :
  os_MkdirAll h dir os_ModePerm w = (None, w1) ->
  os_Create h (filepath_Join h dir "trace.out") w1 = (inl f, w2) ->
  trace_Start h f w2 = (Some e, w3) ->
  StartTrace h dir w = ((None, Some e), w3).
Proof.
  intros Hmk Hcr Htr. unfold StartTrace. run. rewrite Hmk. run. rewrite Hcr.
  run. by rewrite Htr.
Qed.

End Paths.

(** ** Heap recording *)

Lemma same_but_rate_set (r : Z) (w : World) :
  same_but_rate w (set_MemProfileRate r w).
Proof.
  split; [apply events_since_app; simpl; by rewrite app_nil_r | done].
Qed.

(** C7: StartHeapRecording(true) sets the rate to 1, StartHeapRecording(false)
    to 524288, StopHeapRecording to 0, and starting then stopping leaves 0.
    Each call is a total function of the world with no error result: the
    rate is set by the time it returns. *)
Theorem heap_recording_rates (w : World) :
  MemProfileRate (after (StartHeapRecording true) w) = 1%Z
  /\ MemProfileRate (after (StartHeapRecording false) w) = 524288%Z
  /\ MemProfileRate (after StopHeapRecording w) = 0%Z
  /\ MemProfileRate
       (after StopHeapRecording (after (StartHeapRecording true) w)) = 0%Z.
Proof. repeat split. Qed.

(** C10: StartHeapRecording and StopHeapRecording change nothing but
    runtime.MemProfileRate: they make no host call, so no file system
    operation, and directories, files, open handles and the state of the
    profiler and of the tracer are as before. *)
Theorem heap_recording_frame (everyAlloc : bool) (w : World) :
  after (StartHeapRecording everyAlloc) w =
    set_MemProfileRate (if everyAlloc then 1 else 524288)%Z w
  /\ after StopHeapRecording w = set_MemProfileRate 0 w
  /\ same_but_rate w (after (StartHeapRecording everyAlloc) w)
  /\ same_but_rate w (after StopHeapRecording w).
Proof.
  split; [by destruct everyAlloc |]. split; [done |].
  split; [destruct everyAlloc |]; apply same_but_rate_set.
Qed.

(** ** Heap snapshot *)



(** On a healthy disk the same call leaves a closed mem.pprof that holds
    one heap snapshot. *)
Example Heap_on_go_host :
  result (Heap go_host "prof") world0 = None
  /\ files (after (Heap go_host "prof") world0) !! "prof/mem.pprof" =
       Some [HeapSnapshot]
  /\ open_files (after (Heap go_host "prof") world0) = ∅.
Proof. repeat split; vm_compute; reflexivity. Qed.

(** ** CPU profiling: start *)

(** C3: a backend value that is neither built-in nor fgprof makes StartCPU
    return a nil stop function and an error whose text ends with the value;
    the world is left as it was: no host call is made, no directory and no
    file is created or truncated. *)
Theorem StartCPU_unknown_type
        (h : Host) (dir : string) (typ : CPUType) (w : World) :
  typ <> CPUTypeBuiltIn -> typ <> CPUTypeFGProf ->
  StartCPU h dir typ w =
    ((None, Some (Errorf ("unknown CPU profile type " +:+ typ))), w)
  /\ error_message (Errorf ("unknown CPU profile type " +:+ typ)) =
       "unknown CPU profile type " +:+ typ
  /\ events_since w (after (StartCPU h dir typ) w) = []
  /\ dirs (after (StartCPU h dir typ) w) = dirs w
  /\ files (after (StartCPU h dir typ) w) = files w.
Proof.
  intros H1 H2. unfold after. rewrite (StartCPU_run_unknown h dir typ w H1 H2).
  repeat split. apply events_since_refl.
Qed.

Lemma StartCPU_unknown_type_witness :
  StartCPU go_host "prof" "bogus" world0 =
    ((None, Some (Errorf "unknown CPU profile type bogus")), world0)
  /\ error_message (Errorf "unknown CPU profile type bogus") =
       "unknown CPU profile type bogus"
  /\ events_since world0 (after (StartCPU go_host "prof" "bogus") world0) = []
  /\ dirs (after (StartCPU go_host "prof" "bogus") world0) = dirs world0
  /\ files (after (StartCPU go_host "prof" "bogus") world0) = files world0.
Proof.
  apply (StartCPU_unknown_type go_host "prof" "bogus" world0); discriminate.
Defined.

(** C6: with a known backend, StartCPU calls os.Create at most once, on the
    path of cpu.pprof (built-in) or cpu.fgprof.pprof (fgprof) inside [dir],
    and exactly once as soon as the directory step succeeds.  When the
    create succeeds, the files of the world afterwards are the files before
    with that one path created or truncated; otherwise no file has
    changed. *)
Theorem StartCPU_creates_one_file
        (h : Host) (dir : string) (typ : CPUType) (fileName : string)
        (w : World) :
  backend_file typ fileName ->
  match os_MkdirAll h dir os_ModePerm w with
  | (Some _, _) =>
      created_paths (events_since w (after (StartCPU h dir typ) w)) = []
      /\ files (after (StartCPU h dir typ) w) = files w
  | (None, w1) =>
      created_paths (events_since w (after (StartCPU h dir typ) w)) =
        [filepath_Join h dir fileName]
      /\ match os_Create h (filepath_Join h dir fileName) w1 with
         | (inl _, _) =>
             files (after (StartCPU h dir typ) w) =
               <[filepath_Join h dir fileName := []]> (files w)
         | (inr _, _) => files (after (StartCPU h dir typ) w) = files w
         end
  end.
Proof.
  intros Hknown. unfold after.
  destruct (os_MkdirAll h dir os_ModePerm w) as [[e|] w1] eqn:Hmk.
  { (* the directory cannot be made *)
    rewrite (StartCPU_run_mkdir_fails _ _ _ _ _ _ _ Hknown Hmk). simpl.
    split; [by erewrite events_since_app by (note_logs; logs) |].
    by apply os_MkdirAll_fail in Hmk as (_ & -> & _). }
  pose proof (os_MkdirAll_ok _ _ _ _ _ Hmk) as (_ & Fmk & _).
  destruct (os_Create h (filepath_Join h dir fileName) w1) as [[f|e] w2]
    eqn:Hcr.
  2:{ (* the create fails *)
    rewrite (StartCPU_run_create_fails _ _ _ _ _ _ _ _ Hknown Hmk Hcr). simpl.
    split; [by erewrite events_since_app by (note_logs; logs) |].
    apply os_Create_fail in Hcr as (_ & -> & _). done. }
  pose proof (os_Create_ok _ _ _ _ _ Hcr) as (_ & Fcr & _).
  destruct Hknown as [[-> ->] | [-> ->]].
  - (* built-in *)
    destruct (pprof_StartCPUProfile h f w2) as [[e|] w3] eqn:Hat.
    + destruct (File_Close h f w3) as [cerr w4] eqn:Hcl.
      rewrite (StartCPU_run_builtin_refused _ _ _ _ _ _ _ _ _ _ Hmk Hcr Hat Hcl).
      simpl. split; [by erewrite events_since_app by (note_logs; logs) |].
      apply pprof_StartCPUProfile_frame in Hat as (_ & Fat & _).
      apply File_Close_frame in Hcl as (_ & Fcl & _). congruence.
    + rewrite (StartCPU_run_builtin _ _ _ _ _ _ _ Hmk Hcr Hat). simpl.
      split; [by erewrite events_since_app by (note_logs; logs) |].
      apply pprof_StartCPUProfile_frame in Hat as (_ & Fat & _). congruence.
  - (* fgprof *)
    rewrite (StartCPU_run_fgprof _ _ _ _ _ _ Hmk Hcr). simpl.
    split; [by erewrite events_since_app by (note_logs; simpl; logs) |].
    congruence.
Qed.

(** An fgprof session started in an empty file system: one create, of
    prof/cpu.fgprof.pprof, and that file is the only one there is. *)
Lemma StartCPU_creates_one_file_witness :
  created_paths
    (events_since world0 (after (StartCPU go_host "prof" CPUTypeFGProf) world0))
  = ["prof/cpu.fgprof.pprof"]
  /\ files (after (StartCPU go_host "prof" CPUTypeFGProf) world0) =
       <["prof/cpu.fgprof.pprof" := []]> (files world0).
Proof.
  exact (StartCPU_creates_one_file go_host "prof" CPUTypeFGProf
           "cpu.fgprof.pprof" world0 (or_intror (conj eq_refl eq_refl))).
Defined.

(** The built-in backend on the same file system creates prof/cpu.pprof. *)
Example StartCPU_builtin_on_go_host :
  created_paths
    (events_since world0 (after (StartCPU go_host "prof" CPUTypeBuiltIn) world0))
  = ["prof/cpu.pprof"]
  /\ map_to_list (files (after (StartCPU go_host "prof" CPUTypeBuiltIn) world0))
     = [("prof/cpu.pprof", [])].
Proof. split; vm_compute; reflexivity. Qed.

(** C8: once the directory and the file are there, starting an fgprof
    session cannot fail: StartCPU returns a stop function and a nil error. *)
Theorem StartCPU_fgprof_start_cannot_fail
        (h : Host) (dir : string) (w w1 w2 : World) (f : File) :
  os_MkdirAll h dir os_ModePerm w = (None, w1) ->
  os_Create h (filepath_Join h dir "cpu.fgprof.pprof") w1 = (inl f, w2) ->
  StartCPU h dir CPUTypeFGProf w =
    ((Some (closeFn_FGProf h dir "cpu.fgprof.pprof" f (fgprof_stop h f)), None),
     after (fgprof_Start h f FormatPprof) w2).
Proof. apply StartCPU_run_fgprof. Qed.

Lemma StartCPU_fgprof_start_cannot_fail_witness :
  StartCPU go_host "prof" CPUTypeFGProf world0 =
    ((Some (closeFn_FGProf go_host "prof" "cpu.fgprof.pprof" 3
              (fgprof_stop go_host 3)), None),
     after (fgprof_Start go_host 3 FormatPprof)
       (after (os_Create go_host "prof/cpu.fgprof.pprof")
          (after (os_MkdirAll go_host "prof" os_ModePerm) world0))).
Proof.
  apply (StartCPU_fgprof_start_cannot_fail go_host "prof" world0
           (after (os_MkdirAll go_host "prof" os_ModePerm) world0)
           (after (os_Create go_host "prof/cpu.fgprof.pprof")
              (after (os_MkdirAll go_host "prof" os_ModePerm) world0))
           3%nat);
    reflexivity.
Defined.

(** C5: when the built-in profiler refuses to attach to the file that was
    just created, StartCPU closes that file and returns a nil stop function
    together with the attachment error (with the wrapped close error
    attached to it when the close fails as well). *)
Theorem StartCPU_builtin_attach_failure
        (h : Host) (dir : string) (w w1 w2 w3 w4 : World) (f : File)
        (e : error) (cerr : option error) :
  os_MkdirAll h dir os_ModePerm w = (None, w1) ->
  os_Create h (filepath_Join h dir "cpu.pprof") w1 = (inl f, w2) ->
  pprof_StartCPUProfile h f w2 = (Some e, w3) ->
  File_Close h f w3 = (cerr, w4) ->
  StartCPU h dir CPUTypeBuiltIn w =
    ((None,
      match cerr with
      | None => Some e
      | Some c =>
          Some (Multi e (Wrapf c ("close " +:+ filepath_Join h dir "cpu.pprof")))
      end), w4)
  /\ (exists err, snd (result (StartCPU h dir CPUTypeBuiltIn) w) = Some err
                  /\ carries err e)
  /\ open_files w2 !! f = Some (filepath_Join h dir "cpu.pprof")
  /\ open_files w4 !! f = None
  /\ events_since w w4 =
       [EvMkdirAll dir os_ModePerm;
        EvCreate (filepath_Join h dir "cpu.pprof");
        EvStartCPUProfile f; EvClose f]
  /\ closed_files (events_since w w4) = [f].
Proof.
  intros Hmk Hcr Hat Hcl.
  pose proof (StartCPU_run_builtin_refused _ _ _ _ _ _ _ _ _ _ Hmk Hcr Hat Hcl)
    as Hrun.
  assert (Hev : events_since w w4 =
                [EvMkdirAll dir os_ModePerm;
                 EvCreate (filepath_Join h dir "cpu.pprof");
                 EvStartCPUProfile f; EvClose f]) by history.
  split; [done |]. split.
  { unfold result. rewrite Hrun.
    destruct cerr; eexists; (split; [reflexivity |]).
    - apply carries_Multi_l, carries_refl.
    - apply carries_refl. }
  split.
  { apply os_Create_ok in Hcr as (_ & _ & ->). apply lookup_insert_eq. }
  split.
  { apply File_Close_frame in Hcl as (_ & _ & ->). apply lookup_delete_eq. }
  split; [done |]. by rewrite Hev.
Qed.

(** A second built-in session in a process that is already profiling. *)
Lemma StartCPU_builtin_attach_failure_witness :
  StartCPU go_host "prof" CPUTypeBuiltIn busy_world =
    ((None, Some (HostError "cpu profiling already in use")),
     after (StartCPU go_host "prof" CPUTypeBuiltIn) busy_world)
  /\ (exists err,
        snd (result (StartCPU go_host "prof" CPUTypeBuiltIn) busy_world) =
          Some err
        /\ carries err (HostError "cpu profiling already in use"))
  /\ open_files
       (after (os_Create go_host "prof/cpu.pprof")
          (after (os_MkdirAll go_host "prof" os_ModePerm) busy_world)) !! 4%nat
     = Some "prof/cpu.pprof"
  /\ open_files (after (StartCPU go_host "prof" CPUTypeBuiltIn) busy_world)
       !! 4%nat = None
  /\ events_since busy_world
       (after (StartCPU go_host "prof" CPUTypeBuiltIn) busy_world) =
       [EvMkdirAll "prof" os_ModePerm; EvCreate "prof/cpu.pprof";
        EvStartCPUProfile 4; EvClose 4]
  /\ closed_files
       (events_since busy_world
          (after (StartCPU go_host "prof" CPUTypeBuiltIn) busy_world)) =
     [4%nat].
Proof.
  apply (StartCPU_builtin_attach_failure go_host "prof" busy_world
           (after (os_MkdirAll go_host "prof" os_ModePerm) busy_world)
           (after (os_Create go_host "prof/cpu.pprof")
              (after (os_MkdirAll go_host "prof" os_ModePerm) busy_world))
           (after (pprof_StartCPUProfile go_host 4)
              (after (os_Create go_host "prof/cpu.pprof")
                 (after (os_MkdirAll go_host "prof" os_ModePerm) busy_world)))
           (after (StartCPU go_host "prof" CPUTypeBuiltIn) busy_world)
           4%nat (HostError "cpu profiling already in use") None);
    reflexivity.
Defined.

(** ** CPU profiling: stop *)




(** ** Execution trace *)

(** C1: when the directory and trace.out were created but the tracer does not
    start, StartTrace returns that error and a nil stop function, and the
    file it opened stays open: Close is never called on it. *)
Theorem StartTrace_start_failure_leaks_file
        (h : Host) (dir : string) (w w1 w2 w3 : World) (f : File) (e : error) :
  os_MkdirAll h dir os_ModePerm w = (None, w1) ->
  os_Create h (filepath_Join h dir "trace.out") w1 = (inl f, w2) ->
  trace_Start h f w2 = (Some e, w3) ->
  StartTrace h dir w = ((None, Some e), w3)
  /\ open_files w3 !! f = Some (filepath_Join h dir "trace.out")
  /\ events_since w w3 =
       [EvMkdirAll dir os_ModePerm;
        EvCreate (filepath_Join h dir "trace.out");
        EvTraceStart f]
  /\ closed_files (events_since w w3) = [].
Proof.
  intros Hmk Hcr Htr.
  assert (Hev : events_since w w3 =
                [EvMkdirAll dir os_ModePerm;
                 EvCreate (filepath_Join h dir "trace.out");
                 EvTraceStart f]) by history.
  split; [by eapply StartTrace_run_refused |].
  split.
  { apply trace_Start_frame in Htr as (_ & _ & ->).
    apply os_Create_ok in Hcr as (_ & _ & ->). apply lookup_insert_eq. }
  split; [done |]. by rewrite Hev.
Qed.

(** At a second StartTrace in a process that is already tracing, the new
    trace.out is created, the tracer refuses, and handle 4 stays open. *)
Lemma StartTrace_start_failure_leaks_file_witness :
  StartTrace go_host "prof" busy_world =
    ((None, Some (HostError "trace is already enabled")),
     after (StartTrace go_host "prof") busy_world)
  /\ open_files (after (StartTrace go_host "prof") busy_world) !! 4%nat =
       Some "prof/trace.out"
  /\ events_since busy_world (after (StartTrace go_host "prof") busy_world) =
       [EvMkdirAll "prof" os_ModePerm; EvCreate "prof/trace.out";
        EvTraceStart 4]
  /\ closed_files
       (events_since busy_world (after (StartTrace go_host "prof") busy_world))
     = [].
Proof.
  apply (StartTrace_start_failure_leaks_file go_host "prof" busy_world
           (after (os_MkdirAll go_host "prof" os_ModePerm) busy_world)
           (after (os_Create go_host "prof/trace.out")
              (after (os_MkdirAll go_host "prof" os_ModePerm) busy_world))
           (after (StartTrace go_host "prof") busy_world)
           4%nat (HostError "trace is already enabled"));
    reflexivity.
Defined.

(** ** Stop function or error, never both, never neither *)

Lemma StartCPU_stop_iff_no_error
      (h : Host) (dir : string) (typ : CPUType) (w : World) :
  fst (result (StartCPU h dir typ) w) = None <->
  snd (result (StartCPU h dir typ) w) <> None.
Proof.
  unfold result, StartCPU. destruct (switch_typ typ); run.
  - (* built-in *)
    destruct (os_MkdirAll h dir os_ModePerm w) as [[e|] w1]; [done |].
    destruct (os_Create h _ w1) as [[f|e] w2]; [| done].
    destruct (pprof_StartCPUProfile h f w2) as [[e|] w3]; [| done].
    pose proof (errcapture_Do_keeps_error e (File_Close h f)
                  ("close " +:+ filepath_Join h dir "cpu.pprof") w3) as Hk.
    unfold result in Hk.
    destruct (errcapture_Do _ _ _ w3) as [err w4]. simpl in *. tauto.
  - (* fgprof *)
    destruct (os_MkdirAll h dir os_ModePerm w) as [[e|] w1]; [done |].
    destruct (os_Create h _ w1) as [[f|e] w2]; done.
  - (* any other value: the first switch has returned *)
    done.
Qed.

Lemma StartTrace_stop_iff_no_error (h : Host) (dir : string) (w : World) :
  fst (result (StartTrace h dir) w) = None <->
  snd (result (StartTrace h dir) w) <> None.
Proof.
  unfold result, StartTrace. run.
  destruct (os_MkdirAll h dir os_ModePerm w) as [[e|] w1]; [done |].
  destruct (os_Create h _ w1) as [[f|e] w2]; [| done].
  destruct (trace_Start h f w2) as [[e|] w3]; done.
Qed.

(** C9: on every host, directory, backend value and world, StartCPU and
    StartTrace return a nil stop function exactly when they return a
    non-nil error. *)
Theorem Start_stop_function_iff_error
        (h : Host) (dir : string) (typ : CPUType) (w : World) :
  (fst (result (StartCPU h dir typ) w) = None <->
   snd (result (StartCPU h dir typ) w) <> None)
  /\ (fst (result (StartTrace h dir) w) = None <->
      snd (result (StartTrace h dir) w) <> None).
Proof.
  split; [apply StartCPU_stop_iff_no_error | apply StartTrace_stop_iff_no_error].
Qed.


(** * Beyond the start paths: early errors, stop functions, whole sessions *)

(** ** The world after each host call *)

Section Worlds.
Variable h : Host.

Lemma os_MkdirAll_world dir perm (w w1 : World) r :
  os_MkdirAll h dir perm w = (r, w1) ->
  w1 = match r with
       | None =>
           add_dir dir
             (add_dirs (path_ancestors dir) (record (EvMkdirAll dir perm) w))
       | Some _ =>
           add_dirs (take (MkdirAll_made h (record (EvMkdirAll dir perm) w) dir)
                          (path_ancestors dir))
                    (record (EvMkdirAll dir perm) w)
       end.
Proof. unfold os_MkdirAll. intros E. by case_match; simplify_eq. Qed.

Lemma os_Create_world path (w w1 : World) r :
  os_Create h path w = (r, w1) ->
  match r with
  | inl f => f = next_file w
             /\ w1 = open_truncated path (record (EvCreate path) w)
  | inr _ => w1 = record (EvCreate path) w
  end.
Proof. unfold os_Create. intros E. by case_match; simplify_eq. Qed.

Lemma File_Close_world f (w w1 : World) r :
  File_Close h f w = (r, w1) -> w1 = release f (record (EvClose f) w).
Proof. unfold File_Close. intros E. by simplify_eq. Qed.

Lemma pprof_WriteHeapProfile_world f (w w1 : World) r :
  pprof_WriteHeapProfile h f w = (r, w1) ->
  w1 = match r with
       | None => append_chunk f HeapSnapshot (record (EvWriteHeapProfile f) w)
       | Some _ => record (EvWriteHeapProfile f) w
       end.
Proof. unfold pprof_WriteHeapProfile. intros E. by case_match; simplify_eq. Qed.

Lemma pprof_StartCPUProfile_world f (w w1 : World) r :
  pprof_StartCPUProfile h f w = (r, w1) ->
  w1 = match r with
       | None => set_cpu_profiling (Some f) (record (EvStartCPUProfile f) w)
       | Some _ => record (EvStartCPUProfile f) w
       end.
Proof. unfold pprof_StartCPUProfile. intros E. by case_match; simplify_eq. Qed.

Lemma trace_Start_world f (w w1 : World) r :
  trace_Start h f w = (r, w1) ->
  w1 = match r with
       | None => set_tracing (Some f) (record (EvTraceStart f) w)
       | Some _ => record (EvTraceStart f) w
       end.
Proof. unfold trace_Start. intros E. by case_match; simplify_eq. Qed.

Lemma fgprof_stop_world f (w w1 : World) r :
  fgprof_stop h f w = Some (r, w1) ->
  f ∈ fgprof_running w
  /\ w1 = match r with
          | None =>
              append_chunk f FGProfSamples
                (set_fgprof_running (fgprof_running w ∖ {[f]})
                   (record (EvFGProfStop f) w))
          | Some _ =>
              set_fgprof_running (fgprof_running w ∖ {[f]})
                (record (EvFGProfStop f) w)
          end.
Proof.
  unfold fgprof_stop. intros E. case_decide; [| done].
  by case_match; simplify_eq.
Qed.

Lemma pprof_StopCPUProfile_log : logs_one pprof_StopCPUProfile EvStopCPUProfile.
Proof.
  intros w. unfold after, pprof_StopCPUProfile. simpl.
  destruct (cpu_profiling w); simpl; [apply log_append_chunk | done].
Qed.

Lemma trace_Stop_log : logs_one trace_Stop EvTraceStop.
Proof.
  intros w. unfold after, trace_Stop. simpl.
  destruct (tracing w); simpl; [apply log_append_chunk | done].
Qed.

End Worlds.

#[export] Hint Resolve pprof_StopCPUProfile_log trace_Stop_log : host_log.

(** Writing through an open handle changes the file behind it and no other. *)
Lemma files_append_chunk_open f c path (w : World) :
  open_files w !! f = Some path ->
  files (append_chunk f c w) = alter (fun content => content ++ [c]) path (files w).
Proof. intros Hf. unfold append_chunk. by rewrite Hf. Qed.

Lemma files_append_chunk_other f c path (w : World) :
  open_files w !! f = Some path \/ open_files w !! f = None ->
  forall p, p <> path -> files (append_chunk f c w) !! p = files w !! p.
Proof.
  intros Hf p Hp. unfold append_chunk.
  destruct Hf as [-> | ->]; [simpl; by rewrite lookup_alter_ne | done].
Qed.

(** ** What a computation leaves alone *)

Create HintDb frame.

Lemma preserves_ret {B A} (get : World -> B) (a : A) : preserves get (ret a).
Proof. by intros w. Qed.

Lemma preserves_bind {B A C} (get : World -> B) (m : M A) (k : A -> M C) :
  preserves get m -> (forall a, preserves get (k a)) ->
  preserves get (bind m k).
Proof.
  intros Hm Hk w. unfold after, bind.
  specialize (Hm w). unfold after in Hm.
  destruct (m w) as [a w1] eqn:E. simpl in Hm.
  specialize (Hk a w1). unfold after in Hk. congruence.
Qed.

(** Settle [preserves get m] for a computation built from [bind], [ret],
    case distinctions and calls known to the [frame] database. *)
Ltac frame :=
  repeat first
    [ apply preserves_ret
    | apply preserves_bind; [| intros ?]
    | match goal with
      | |- preserves _ (match ?x with _ => _ end) => destruct x
      end
    | solve [eauto with frame] ].

Lemma fs_blind_MemProfileRate : fs_blind MemProfileRate.
Proof. repeat split. intros f c w. unfold append_chunk. by case_match. Qed.

Lemma fs_blind_cpu_profiling : fs_blind cpu_profiling.
Proof. repeat split. intros f c w. unfold append_chunk. by case_match. Qed.

Lemma fs_blind_tracing : fs_blind tracing.
Proof. repeat split. intros f c w. unfold append_chunk. by case_match. Qed.

Lemma cpu_blind_MemProfileRate : cpu_blind MemProfileRate.
Proof. by intros o w. Qed.

Lemma cpu_blind_tracing : cpu_blind tracing.
Proof. by intros o w. Qed.

Lemma trace_blind_MemProfileRate : trace_blind MemProfileRate.
Proof. by intros o w. Qed.

Lemma trace_blind_cpu_profiling : trace_blind cpu_profiling.
Proof. by intros o w. Qed.

Lemma fgprof_blind_MemProfileRate : fgprof_blind MemProfileRate.
Proof. by intros s w. Qed.

Lemma fgprof_blind_cpu_profiling : fgprof_blind cpu_profiling.
Proof. by intros s w. Qed.

Lemma fgprof_blind_tracing : fgprof_blind tracing.
Proof. by intros s w. Qed.

#[export] Hint Resolve fs_blind_MemProfileRate fs_blind_cpu_profiling
  fs_blind_tracing cpu_blind_MemProfileRate cpu_blind_tracing
  trace_blind_MemProfileRate trace_blind_cpu_profiling
  fgprof_blind_MemProfileRate fgprof_blind_cpu_profiling fgprof_blind_tracing
  : frame.

Section Frames.
Context {B : Type} (get : World -> B).
Variable h : Host.
Hypothesis Hfs : fs_blind get.

Lemma os_MkdirAll_preserves dir perm : preserves get (os_MkdirAll h dir perm).
Proof.
  destruct Hfs as (Hr & Hd & _). intros w. unfold after, os_MkdirAll.
  case_match; simpl; by rewrite ?Hd, (add_dirs_blind get), Hr.
Qed.

Lemma os_Create_preserves path : preserves get (os_Create h path).
Proof.
  destruct Hfs as (Hr & _ & Ho & _). intros w. unfold after, os_Create.
  case_match; simpl; by rewrite ?Ho, Hr.
Qed.

Lemma File_Close_preserves f : preserves get (File_Close h f).
Proof.
  destruct Hfs as (Hr & _ & _ & Hc & _). intros w. unfold after, File_Close.
  simpl. by rewrite Hc, Hr.
Qed.

Lemma pprof_WriteHeapProfile_preserves f :
  preserves get (pprof_WriteHeapProfile h f).
Proof.
  destruct Hfs as (Hr & _ & _ & _ & Ha). intros w.
  unfold after, pprof_WriteHeapProfile. case_match; simpl; by rewrite ?Ha, Hr.
Qed.

Lemma fgprof_Start_preserves f format :
  fgprof_blind get -> preserves get (fgprof_Start h f format).
Proof.
  destruct Hfs as (Hr & _). intros Hg w. unfold after, fgprof_Start. simpl.
  by rewrite Hg, Hr.
Qed.

Lemma pprof_StartCPUProfile_preserves f :
  cpu_blind get -> preserves get (pprof_StartCPUProfile h f).
Proof.
  destruct Hfs as (Hr & _). intros Hc w. unfold after, pprof_StartCPUProfile.
  case_match; simpl; by rewrite ?Hc, Hr.
Qed.

Lemma pprof_StopCPUProfile_preserves :
  cpu_blind get -> preserves get pprof_StopCPUProfile.
Proof.
  destruct Hfs as (Hr & _ & _ & _ & Ha). intros Hc w.
  unfold after, pprof_StopCPUProfile. simpl.
  destruct (cpu_profiling w); simpl; by rewrite ?Hc, ?Ha, Hr.
Qed.

Lemma trace_Start_preserves f :
  trace_blind get -> preserves get (trace_Start h f).
Proof.
  destruct Hfs as (Hr & _). intros Ht w. unfold after, trace_Start.
  case_match; simpl; by rewrite ?Ht, Hr.
Qed.

Lemma trace_Stop_preserves : trace_blind get -> preserves get trace_Stop.
Proof.
  destruct Hfs as (Hr & _ & _ & _ & Ha). intros Ht w.
  unfold after, trace_Stop. simpl.
  destruct (tracing w); simpl; by rewrite ?Ht, ?Ha, Hr.
Qed.

Lemma errcapture_Do_preserves err (doer : M (option error)) format :
  preserves get doer -> preserves get (errcapture_Do err doer format).
Proof.
  intros Hd. unfold errcapture_Do. apply preserves_bind; [done |].
  intros [d|]; [destruct err |]; apply preserves_ret.
Qed.

(** The same for the stop callback of fgprof, when it returns. *)
Lemma fgprof_stop_keeps f (w w1 : World) r :
  fgprof_blind get -> fgprof_stop h f w = Some (r, w1) -> get w1 = get w.
Proof.
  destruct Hfs as (Hr & _ & _ & _ & Ha). intros Hg E.
  apply fgprof_stop_world in E as [_ ->].
  destruct r; by rewrite ?Ha, Hg, Hr.
Qed.

End Frames.

#[export] Hint Resolve os_MkdirAll_preserves os_Create_preserves
  File_Close_preserves pprof_WriteHeapProfile_preserves
  fgprof_Start_preserves pprof_StartCPUProfile_preserves
  pprof_StopCPUProfile_preserves trace_Start_preserves trace_Stop_preserves
  errcapture_Do_preserves : frame.

Section PackageFrames.
Context {B : Type} (get : World -> B).
Variable h : Host.
Variable dir : string.
Hypothesis Hfs : fs_blind get.

Lemma Heap_preserves : preserves get (Heap h dir).
Proof. unfold Heap. frame. Qed.

Lemma closeFn_BuiltIn_preserves fileName f :
  cpu_blind get -> preserves get (closeFn_BuiltIn h dir fileName f).
Proof. intros Hc. unfold closeFn_BuiltIn. frame. Qed.

Lemma closeFn_FGProf_keeps fileName f (w : World) :
  fgprof_blind get ->
  whenever_returns (closeFn_FGProf h dir fileName f (fgprof_stop h f)) w
                   (fun w' => get w' = get w).
Proof.
  intros Hg. unfold whenever_returns, closeFn_FGProf.
  destruct (fgprof_stop h f w) as [[ferr w1]|] eqn:Hfl; [| done].
  pose proof (fgprof_stop_keeps get h Hfs f w w1 ferr Hg Hfl) as Hk.
  assert (Hdo : preserves get
                  (errcapture_Do ferr (File_Close h f)
                     ("close " +:+ filepath_Join h dir fileName)))
    by frame.
  specialize (Hdo w1). unfold after in Hdo.
  destruct (errcapture_Do _ _ _ w1) as [r w2]. simpl in Hdo. congruence.
Qed.

Lemma closeFn_Trace_preserves fileName f :
  trace_blind get -> preserves get (closeFn_Trace h dir fileName f).
Proof. intros Ht. unfold closeFn_Trace. frame. Qed.

Lemma StartCPU_preserves typ :
  cpu_blind get -> fgprof_blind get -> preserves get (StartCPU h dir typ).
Proof. intros Hc Hg. unfold StartCPU. destruct (switch_typ typ); frame. Qed.

Lemma StartCPU_FGProf_preserves :
  fgprof_blind get -> preserves get (StartCPU h dir CPUTypeFGProf).
Proof. intros Hg. unfold StartCPU. rewrite switch_typ_FGProf. frame. Qed.

Lemma StartTrace_preserves :
  trace_blind get -> preserves get (StartTrace h dir).
Proof. intros Ht. unfold StartTrace. frame. Qed.

End PackageFrames.

(** ** Heap: early errors and what stays untouched *)



Example Heap_on_quota_host :
  elements (dirs (after (Heap quota_host "out/prof/run") world0)) = ["out"].
Proof. vm_compute. reflexivity. Qed.

(** X2: when mem.pprof cannot be created, Heap returns the error of
    os.Create unchanged; the heap profile is not written and nothing is
    closed, no file has changed and no handle was opened. *)
Theorem Heap_create_error
        (h : Host) (dir : string) (w w1 w2 : World) (e : error) :
  os_MkdirAll h dir os_ModePerm w = (None, w1) ->
  os_Create h (filepath_Join h dir "mem.pprof") w1 = (inr e, w2) ->
  Heap h dir w = (Some e, w2)
  /\ events_since w w2 =
       [EvMkdirAll dir os_ModePerm; EvCreate (filepath_Join h dir "mem.pprof")]
  /\ files w2 = files w /\ open_files w2 = open_files w.
Proof.
  intros Hmk Hcr.
  split; [unfold Heap; run; rewrite Hmk; run; by rewrite Hcr |].
  split; [history |].
  apply os_MkdirAll_ok in Hmk as (_ & Fmk & Omk).
  apply os_Create_fail in Hcr as (_ & Fcr & Ocr). split; congruence.
Qed.

Lemma Heap_create_error_witness :
  Heap no_create_host "prof" world0 =
    (Some (HostError "open: too many open files"),
     after (Heap no_create_host "prof") world0)
  /\ events_since world0 (after (Heap no_create_host "prof") world0) =
       [EvMkdirAll "prof" os_ModePerm; EvCreate "prof/mem.pprof"]
  /\ files (after (Heap no_create_host "prof") world0) = files world0
  /\ open_files (after (Heap no_create_host "prof") world0) = open_files world0.
Proof.
  apply (Heap_create_error no_create_host "prof" world0
           (after (os_MkdirAll no_create_host "prof" os_ModePerm) world0)
           (after (Heap no_create_host "prof") world0)
           (HostError "open: too many open files"));
    reflexivity.
Defined.

(** Heap in terms of its four host calls, on any host and world. *)
Lemma Heap_cases (h : Host) (dir : string) (w : World) :
  (exists e, os_MkdirAll h dir os_ModePerm w = (Some e, after (Heap h dir) w))
  \/ (exists w1 e,
        os_MkdirAll h dir os_ModePerm w = (None, w1)
        /\ os_Create h (filepath_Join h dir "mem.pprof") w1 =
             (inr e, after (Heap h dir) w))
  \/ (exists w1 f w2 werr w3 cerr,
        os_MkdirAll h dir os_ModePerm w = (None, w1)
        /\ os_Create h (filepath_Join h dir "mem.pprof") w1 = (inl f, w2)
        /\ pprof_WriteHeapProfile h f w2 = (werr, w3)
        /\ File_Close h f w3 = (cerr, after (Heap h dir) w)).
Proof.
  unfold after.
  destruct (os_MkdirAll h dir os_ModePerm w) as [[e|] w1] eqn:Hmk.
  { left. exists e. unfold Heap. run. by rewrite Hmk. }
  destruct (os_Create h (filepath_Join h dir "mem.pprof") w1) as [[f|e] w2]
    eqn:Hcr.
  2:{ right; left. exists w1, e. unfold Heap. run. rewrite Hmk. run.
      by rewrite Hcr. }
  destruct (pprof_WriteHeapProfile h f w2) as [werr w3] eqn:Hwr.
  destruct (File_Close h f w3) as [cerr w4] eqn:Hcl.
  right; right. exists w1, f, w2, werr, w3, cerr.
  by rewrite (Heap_run _ _ _ _ _ _ _ _ _ _ Hmk Hcr Hwr Hcl).
Qed.

(** X3: Heap never leaks a file handle: whichever call fails or succeeds,
    the table of open files after Heap is the table before it. *)
Theorem Heap_never_leaks
        (h : Host) (dir : string) (w : World) :
  fresh_handle w ->
  open_files (after (Heap h dir) w) = open_files w.
Proof.
  intros Hfresh.
  destruct (Heap_cases h dir w)
    as [[e Hmk] | [(w1 & e & Hmk & Hcr)
                  | (w1 & f & w2 & werr & w3 & cerr & Hmk & Hcr & Hwr & Hcl)]].
  - by apply os_MkdirAll_fail in Hmk as (_ & _ & ->).
  - apply os_MkdirAll_ok in Hmk as (_ & _ & Omk).
    apply os_Create_fail in Hcr as (_ & _ & Ocr). congruence.
  - apply os_MkdirAll_world in Hmk. apply os_Create_world in Hcr as [Hf Hcr].
    apply pprof_WriteHeapProfile_frame in Hwr as (_ & Owr).
    apply File_Close_frame in Hcl as (_ & _ & ->).
    rewrite Owr. subst. fields. by apply delete_insert_id.
Qed.

Lemma Heap_never_leaks_witness :
  open_files (after (Heap failing_disk_host "prof") busy_world) =
    open_files busy_world.
Proof.
  apply (Heap_never_leaks failing_disk_host "prof" busy_world). reflexivity.
Defined.

(** X4: Heap changes no file but mem.pprof in [dir]: every other path holds
    after the call what it held before, on every host and outcome. *)
Theorem Heap_touches_only_mem_pprof
        (h : Host) (dir : string) (w : World) (p : string) :
  p <> filepath_Join h dir "mem.pprof" ->
  files (after (Heap h dir) w) !! p = files w !! p.
Proof.
  intros Hp.
  destruct (Heap_cases h dir w)
    as [[e Hmk] | [(w1 & e & Hmk & Hcr)
                  | (w1 & f & w2 & werr & w3 & cerr & Hmk & Hcr & Hwr & Hcl)]].
  - by apply os_MkdirAll_fail in Hmk as (_ & -> & _).
  - apply os_MkdirAll_ok in Hmk as (_ & Fmk & _).
    apply os_Create_fail in Hcr as (_ & Fcr & _). congruence.
  - apply os_MkdirAll_ok in Hmk as (_ & Fmk & _).
    apply os_Create_ok in Hcr as (_ & Fcr & Ocr).
    apply File_Close_frame in Hcl as (_ & -> & _).
    apply pprof_WriteHeapProfile_world in Hwr. subst w3.
    assert (Hother : files w2 !! p = files w !! p).
    { rewrite Fcr, lookup_insert_ne by done. by rewrite Fmk. }
    destruct werr; [done |].
    rewrite (files_append_chunk_other f HeapSnapshot
               (filepath_Join h dir "mem.pprof")); [done | | done].
    left. simpl. rewrite Ocr. apply lookup_insert_eq.
Qed.

Lemma Heap_touches_only_mem_pprof_witness :
  files (after (Heap go_host "prof") busy_world) !! "prof/old.pprof" =
    files busy_world !! "prof/old.pprof".
Proof.
  apply (Heap_touches_only_mem_pprof go_host "prof" busy_world "prof/old.pprof").
  discriminate.
Defined.

(** On a disk where nothing fails, Heap succeeds and leaves mem.pprof with
    one snapshot, whatever the file held before. *)
Lemma Heap_on_healthy_disk (h : Host) (dir : string) (w : World) :
  healthy_disk h ->
  result (Heap h dir) w = None
  /\ files (after (Heap h dir) w) =
       <[filepath_Join h dir "mem.pprof" := [HeapSnapshot]]> (files w).
Proof.
  intros Hh. unfold result, after.
  destruct (os_MkdirAll h dir os_ModePerm w) as [r1 w1] eqn:Hmk.
  assert (r1 = None) as ->.
  { revert Hmk. unfold os_MkdirAll.
    destruct (Hh (record (EvMkdirAll dir os_ModePerm) w)) as (-> & _).
    by intros [= <- _]. }
  destruct (os_Create h (filepath_Join h dir "mem.pprof") w1) as [r2 w2]
    eqn:Hcr.
  assert (exists f, r2 = inl f) as [f ->].
  { revert Hcr. unfold os_Create.
    destruct (Hh (record (EvCreate (filepath_Join h dir "mem.pprof")) w1))
      as (_ & -> & _).
    intros [= <- _]. by eexists. }
  destruct (pprof_WriteHeapProfile h f w2) as [r3 w3] eqn:Hwr.
  assert (r3 = None) as ->.
  { revert Hwr. unfold pprof_WriteHeapProfile.
    destruct (Hh (record (EvWriteHeapProfile f) w2)) as (_ & _ & -> & _).
    by intros [= <- _]. }
  destruct (File_Close h f w3) as [r4 w4] eqn:Hcl.
  assert (r4 = None) as ->.
  { revert Hcl. unfold File_Close.
    destruct (Hh (record (EvClose f) w3)) as (_ & _ & _ & ->).
    by intros [= <- _]. }
  rewrite (Heap_run _ _ _ _ _ _ _ _ _ _ Hmk Hcr Hwr Hcl). simpl.
  split; [done |].
  apply os_MkdirAll_ok in Hmk as (_ & Fmk & _).
  apply os_Create_ok in Hcr as (_ & Fcr & Ocr).
  apply File_Close_frame in Hcl as (_ & -> & _).
  rewrite (pprof_WriteHeapProfile_ok _ _ (filepath_Join h dir "mem.pprof")
             _ _ Hwr) by (rewrite Ocr; apply lookup_insert_eq).
  by rewrite Fcr, alter_insert_eq, Fmk.
Qed.

(** X5: calling Heap a second time overwrites the profile, it does not
    append to it: on a disk where nothing fails both calls succeed, and the
    files after the second call are the files after the first, with one
    heap snapshot in mem.pprof. *)
Theorem Heap_twice_overwrites
        (h : Host) (dir : string) (w : World) :
  healthy_disk h ->
  result (Heap h dir) w = None
  /\ result (Heap h dir) (after (Heap h dir) w) = None
  /\ files (after (Heap h dir) (after (Heap h dir) w)) =
       files (after (Heap h dir) w)
  /\ files (after (Heap h dir) (after (Heap h dir) w))
       !! filepath_Join h dir "mem.pprof" = Some [HeapSnapshot].
Proof.
  intros Hh.
  destruct (Heap_on_healthy_disk h dir w Hh) as [R1 F1].
  destruct (Heap_on_healthy_disk h dir (after (Heap h dir) w) Hh) as [R2 F2].
  split; [done |]. split; [done |].
  rewrite F2, F1, insert_insert_eq. split; [done |]. apply lookup_insert_eq.
Qed.

Lemma Heap_twice_overwrites_witness :
  result (Heap go_host "prof") world0 = None
  /\ result (Heap go_host "prof") (after (Heap go_host "prof") world0) = None
  /\ files (after (Heap go_host "prof") (after (Heap go_host "prof") world0)) =
       files (after (Heap go_host "prof") world0)
  /\ files (after (Heap go_host "prof") (after (Heap go_host "prof") world0))
       !! "prof/mem.pprof" = Some [HeapSnapshot].
Proof.
  apply (Heap_twice_overwrites go_host "prof" world0).
  intros w. repeat split.
Defined.

(** ** CPU profiling: early errors *)

(** X6: with a known backend, when the directory cannot be made StartCPU
    returns a nil stop function and the error of os.MkdirAll unchanged; no
    file is created and no profiler is started. *)
Theorem StartCPU_mkdir_error
        (h : Host) (dir : string) (typ : CPUType) (fileName : string)
        (w w1 : World) (e : error) :
  backend_file typ fileName ->
  os_MkdirAll h dir os_ModePerm w = (Some e, w1) ->
  StartCPU h dir typ w = ((None, Some e), w1)
  /\ events_since w w1 = [EvMkdirAll dir os_ModePerm]
  /\ files w1 = files w /\ open_files w1 = open_files w
  /\ cpu_profiling w1 = cpu_profiling w.
Proof.
  intros Hknown Hmk.
  split; [by eapply StartCPU_run_mkdir_fails |]. split; [history |].
  apply os_MkdirAll_world in Hmk. subst. by fields.
Qed.

Lemma StartCPU_mkdir_error_witness :
  StartCPU readonly_host "prof" CPUTypeBuiltIn world0 =
    ((None, Some (HostError "mkdir: read-only file system")),
     after (StartCPU readonly_host "prof" CPUTypeBuiltIn) world0)
  /\ events_since world0
       (after (StartCPU readonly_host "prof" CPUTypeBuiltIn) world0) =
       [EvMkdirAll "prof" os_ModePerm]
  /\ files (after (StartCPU readonly_host "prof" CPUTypeBuiltIn) world0) =
       files world0
  /\ open_files (after (StartCPU readonly_host "prof" CPUTypeBuiltIn) world0) =
       open_files world0
  /\ cpu_profiling (after (StartCPU readonly_host "prof" CPUTypeBuiltIn) world0)
     = cpu_profiling world0.
Proof.
  apply (StartCPU_mkdir_error readonly_host "prof" CPUTypeBuiltIn "cpu.pprof"
           world0 (after (StartCPU readonly_host "prof" CPUTypeBuiltIn) world0)
           (HostError "mkdir: read-only file system")).
  - left. split; reflexivity.
  - reflexivity.
Defined.

(** X7: with a known backend, when the profile file cannot be created
    StartCPU returns a nil stop function and the error of os.Create
    unchanged; neither backend is started, no handle is opened and no file
    has changed. *)
Theorem StartCPU_create_error
        (h : Host) (dir : string) (typ : CPUType) (fileName : string)
        (w w1 w2 : World) (e : error) :
  backend_file typ fileName ->
  os_MkdirAll h dir os_ModePerm w = (None, w1) ->
  os_Create h (filepath_Join h dir fileName) w1 = (inr e, w2) ->
  StartCPU h dir typ w = ((None, Some e), w2)
  /\ events_since w w2 =
       [EvMkdirAll dir os_ModePerm; EvCreate (filepath_Join h dir fileName)]
  /\ files w2 = files w /\ open_files w2 = open_files w
  /\ cpu_profiling w2 = cpu_profiling w.
Proof.
  intros Hknown Hmk Hcr.
  split; [by eapply StartCPU_run_create_fails |]. split; [history |].
  apply os_MkdirAll_world in Hmk. apply os_Create_world in Hcr. subst.
  by fields.
Qed.

Lemma StartCPU_create_error_witness :
  StartCPU no_create_host "prof" CPUTypeFGProf world0 =
    ((None, Some (HostError "open: too many open files")),
     after (StartCPU no_create_host "prof" CPUTypeFGProf) world0)
  /\ events_since world0
       (after (StartCPU no_create_host "prof" CPUTypeFGProf) world0) =
       [EvMkdirAll "prof" os_ModePerm; EvCreate "prof/cpu.fgprof.pprof"]
  /\ files (after (StartCPU no_create_host "prof" CPUTypeFGProf) world0) =
       files world0
  /\ open_files (after (StartCPU no_create_host "prof" CPUTypeFGProf) world0) =
       open_files world0
  /\ cpu_profiling (after (StartCPU no_create_host "prof" CPUTypeFGProf) world0)
     = cpu_profiling world0.
Proof.
  apply (StartCPU_create_error no_create_host "prof" CPUTypeFGProf
           "cpu.fgprof.pprof" world0
           (after (os_MkdirAll no_create_host "prof" os_ModePerm) world0)
           (after (StartCPU no_create_host "prof" CPUTypeFGProf) world0)
           (HostError "open: too many open files")).
  - right. split; reflexivity.
  - reflexivity.
  - reflexivity.
Defined.

(** StartCPU in terms of its host calls, on any host, backend and world. *)
Lemma StartCPU_cases (h : Host) (dir : string) (typ : CPUType) (w : World) :
  (typ <> CPUTypeBuiltIn /\ typ <> CPUTypeFGProf /\ after (StartCPU h dir typ) w = w)
  \/ (exists fileName, backend_file typ fileName /\
      ((exists e, os_MkdirAll h dir os_ModePerm w =
                    (Some e, after (StartCPU h dir typ) w))
       \/ (exists w1 e,
             os_MkdirAll h dir os_ModePerm w = (None, w1)
             /\ os_Create h (filepath_Join h dir fileName) w1 =
                  (inr e, after (StartCPU h dir typ) w))
       \/ (exists w1 f w2,
             os_MkdirAll h dir os_ModePerm w = (None, w1)
             /\ os_Create h (filepath_Join h dir fileName) w1 = (inl f, w2)
             /\ ((typ = CPUTypeFGProf
                  /\ StartCPU h dir typ w =
                       ((Some (closeFn_FGProf h dir fileName f (fgprof_stop h f)),
                         None), after (fgprof_Start h f FormatPprof) w2))
                 \/ (typ = CPUTypeBuiltIn
                     /\ exists w3,
                          pprof_StartCPUProfile h f w2 = (None, w3)
                          /\ StartCPU h dir typ w =
                               ((Some (returns (closeFn_BuiltIn h dir fileName f)),
                                 None),
                                w3))
                 \/ (typ = CPUTypeBuiltIn
                     /\ exists e w3 cerr,
                          pprof_StartCPUProfile h f w2 = (Some e, w3)
                          /\ File_Close h f w3 =
                               (cerr, after (StartCPU h dir typ) w)
                          /\ fst (result (StartCPU h dir typ) w) = None))))).
Proof.
  destruct (decide (typ = CPUTypeBuiltIn)) as [-> | Hb];
    [| destruct (decide (typ = CPUTypeFGProf)) as [-> | Hf]].
  - (* built-in *)
    assert (Hk : backend_file CPUTypeBuiltIn "cpu.pprof") by (by left).
    right. exists "cpu.pprof". split; [done |]. unfold after, result.
    destruct (os_MkdirAll h dir os_ModePerm w) as [[e|] w1] eqn:Hmk.
    { left. exists e. by rewrite (StartCPU_run_mkdir_fails _ _ _ _ _ _ _ Hk Hmk). }
    right.
    destruct (os_Create h (filepath_Join h dir "cpu.pprof") w1) as [[f|e] w2]
      eqn:Hcr.
    2:{ left. exists w1, e.
        by rewrite (StartCPU_run_create_fails _ _ _ _ _ _ _ _ Hk Hmk Hcr). }
    right. exists w1, f, w2. split; [done |]. split; [done |].
    destruct (pprof_StartCPUProfile h f w2) as [[e|] w3] eqn:Hat.
    + right; right. split; [done |].
      destruct (File_Close h f w3) as [cerr w4] eqn:Hcl.
      exists e, w3, cerr.
      by rewrite (StartCPU_run_builtin_refused _ _ _ _ _ _ _ _ _ _
                    Hmk Hcr Hat Hcl).
    + right; left. split; [done |]. exists w3.
      by rewrite (StartCPU_run_builtin _ _ _ _ _ _ _ Hmk Hcr Hat).
  - (* fgprof *)
    assert (Hk : backend_file CPUTypeFGProf "cpu.fgprof.pprof") by (by right).
    right. exists "cpu.fgprof.pprof". split; [done |]. unfold after, result.
    destruct (os_MkdirAll h dir os_ModePerm w) as [[e|] w1] eqn:Hmk.
    { left. exists e. by rewrite (StartCPU_run_mkdir_fails _ _ _ _ _ _ _ Hk Hmk). }
    right.
    destruct (os_Create h (filepath_Join h dir "cpu.fgprof.pprof") w1)
      as [[f|e] w2] eqn:Hcr.
    2:{ left. exists w1, e.
        by rewrite (StartCPU_run_create_fails _ _ _ _ _ _ _ _ Hk Hmk Hcr). }
    right. exists w1, f, w2. split; [done |]. split; [done |].
    left. split; [done |]. by eapply StartCPU_run_fgprof.
  - (* any other value *)
    left. unfold after. by rewrite StartCPU_run_unknown.
Qed.

(** ** CPU profiling: the built-in session *)

(** X8: when the directory, cpu.pprof and the attachment all succeed,
    StartCPU with the built-in backend returns a stop function and a nil
    error; it has made three host calls, the new file is empty and still
    open, and the profiler is attached to it. *)
Theorem StartCPU_builtin_success
        (h : Host) (dir : string) (w w1 w2 w3 : World) (f : File) :
  os_MkdirAll h dir os_ModePerm w = (None, w1) ->
  os_Create h (filepath_Join h dir "cpu.pprof") w1 = (inl f, w2) ->
  pprof_StartCPUProfile h f w2 = (None, w3) ->
  StartCPU h dir CPUTypeBuiltIn w =
    ((Some (returns (closeFn_BuiltIn h dir "cpu.pprof" f)), None), w3)
  /\ events_since w w3 =
       [EvMkdirAll dir os_ModePerm;
        EvCreate (filepath_Join h dir "cpu.pprof");
        EvStartCPUProfile f]
  /\ files w3 !! filepath_Join h dir "cpu.pprof" = Some []
  /\ open_files w3 !! f = Some (filepath_Join h dir "cpu.pprof")
  /\ cpu_profiling w3 = Some f.
Proof.
  intros Hmk Hcr Hat.
  split; [by eapply StartCPU_run_builtin |]. split; [history |].
  apply os_Create_ok in Hcr as (_ & Fcr & Ocr).
  apply pprof_StartCPUProfile_world in Hat. subst w3. simpl.
  rewrite Fcr, Ocr. by rewrite !lookup_insert_eq.
Qed.

Lemma StartCPU_builtin_success_witness :
  StartCPU go_host "prof" CPUTypeBuiltIn world0 =
    ((Some (returns (closeFn_BuiltIn go_host "prof" "cpu.pprof" 3)), None),
     after (StartCPU go_host "prof" CPUTypeBuiltIn) world0)
  /\ events_since world0 (after (StartCPU go_host "prof" CPUTypeBuiltIn) world0)
     = [EvMkdirAll "prof" os_ModePerm; EvCreate "prof/cpu.pprof";
        EvStartCPUProfile 3]
  /\ files (after (StartCPU go_host "prof" CPUTypeBuiltIn) world0)
       !! "prof/cpu.pprof" = Some []
  /\ open_files (after (StartCPU go_host "prof" CPUTypeBuiltIn) world0) !! 3%nat
     = Some "prof/cpu.pprof"
  /\ cpu_profiling (after (StartCPU go_host "prof" CPUTypeBuiltIn) world0) =
       Some 3%nat.
Proof.
  apply (StartCPU_builtin_success go_host "prof" world0
           (after (os_MkdirAll go_host "prof" os_ModePerm) world0)
           (after (os_Create go_host "prof/cpu.pprof")
              (after (os_MkdirAll go_host "prof" os_ModePerm) world0))
           (after (StartCPU go_host "prof" CPUTypeBuiltIn) world0)
           3%nat);
    reflexivity.
Defined.

(** The stop function of a built-in session, by the outcome of Close. *)
Lemma closeFn_BuiltIn_run (h : Host) (dir fileName : string) (f : File)
      (w w1 w2 : World) (cerr : option error) :
  pprof_StopCPUProfile w = (tt, w1) ->
  File_Close h f w1 = (cerr, w2) ->
  closeFn_BuiltIn h dir fileName f w =
    (errors_Wrapf cerr ("close " +:+ filepath_Join h dir fileName), w2).
Proof.
  intros Hst Hcl. unfold closeFn_BuiltIn. run. rewrite Hst. run.
  by rewrite Hcl.
Qed.

(** X9: the stop function of a built-in session first stops the profiler,
    then closes the file.  It returns nil when the close succeeds and the
    close error wrapped with "close <path>" otherwise; either way the
    profiler is detached and the handle is given up. *)
Theorem StartCPU_builtin_stop
        (h : Host) (dir : string) (w w1 w2 w3 w4 w5 w6 : World) (f : File)
        (stop : Closer) (cerr : option error) :
  os_MkdirAll h dir os_ModePerm w = (None, w1) ->
  os_Create h (filepath_Join h dir "cpu.pprof") w1 = (inl f, w2) ->
  StartCPU h dir CPUTypeBuiltIn w = ((Some stop, None), w3) ->
  pprof_StopCPUProfile w4 = (tt, w5) ->
  File_Close h f w5 = (cerr, w6) ->
  stop w4 =
    Some (match cerr with
          | None => None
          | Some c =>
              Some (Wrapf c ("close " +:+ filepath_Join h dir "cpu.pprof"))
          end, w6)
  /\ events_since w4 w6 = [EvStopCPUProfile; EvClose f]
  /\ cpu_profiling w6 = None
  /\ open_files w6 !! f = None.
Proof.
  intros Hmk Hcr Hstart Hst Hcl.
  assert (stop = returns (closeFn_BuiltIn h dir "cpu.pprof" f)) as ->.
  { destruct (pprof_StartCPUProfile h f w2) as [[e|] w3'] eqn:Hat.
    - destruct (File_Close h f w3') as [c w4'] eqn:Hcl'.
      rewrite (StartCPU_run_builtin_refused _ _ _ _ _ _ _ _ _ _
                 Hmk Hcr Hat Hcl') in Hstart. discriminate.
    - rewrite (StartCPU_run_builtin _ _ _ _ _ _ _ Hmk Hcr Hat) in Hstart.
      by injection Hstart as <- _. }
  split.
  { unfold returns. rewrite (closeFn_BuiltIn_run _ _ _ _ _ _ _ _ Hst Hcl).
    by destruct cerr. }
  split; [clear Hmk Hcr Hstart; history |].
  split.
  - pose proof (File_Close_preserves cpu_profiling h fs_blind_cpu_profiling
                  f w5) as Hkeep.
    unfold after in Hkeep. rewrite Hcl in Hkeep. simpl in Hkeep.
    rewrite Hkeep. revert Hst. unfold pprof_StopCPUProfile. simpl.
    destruct (cpu_profiling w4) eqn:Hcpu; intros [= <-]; [done |].
    by simpl.
  - apply File_Close_frame in Hcl as (_ & _ & ->). apply lookup_delete_eq.
Qed.

Lemma StartCPU_builtin_stop_witness :
  returns (closeFn_BuiltIn failing_disk_host "prof" "cpu.pprof" 3)
    (after (StartCPU failing_disk_host "prof" CPUTypeBuiltIn) world0) =
    Some (Some (Wrapf (HostError "close: input/output error")
                      "close prof/cpu.pprof"),
          after (closeFn_BuiltIn failing_disk_host "prof" "cpu.pprof" 3)
            (after (StartCPU failing_disk_host "prof" CPUTypeBuiltIn) world0))
  /\ events_since
       (after (StartCPU failing_disk_host "prof" CPUTypeBuiltIn) world0)
       (after (closeFn_BuiltIn failing_disk_host "prof" "cpu.pprof" 3)
          (after (StartCPU failing_disk_host "prof" CPUTypeBuiltIn) world0)) =
       [EvStopCPUProfile; EvClose 3]
  /\ cpu_profiling
       (after (closeFn_BuiltIn failing_disk_host "prof" "cpu.pprof" 3)
          (after (StartCPU failing_disk_host "prof" CPUTypeBuiltIn) world0)) =
       None
  /\ open_files
       (after (closeFn_BuiltIn failing_disk_host "prof" "cpu.pprof" 3)
          (after (StartCPU failing_disk_host "prof" CPUTypeBuiltIn) world0))
       !! 3%nat = None.
Proof.
  apply (StartCPU_builtin_stop failing_disk_host "prof" world0
           (after (os_MkdirAll failing_disk_host "prof" os_ModePerm) world0)
           (after (os_Create failing_disk_host "prof/cpu.pprof")
              (after (os_MkdirAll failing_disk_host "prof" os_ModePerm) world0))
           (after (StartCPU failing_disk_host "prof" CPUTypeBuiltIn) world0)
           (after (StartCPU failing_disk_host "prof" CPUTypeBuiltIn) world0)
           (after pprof_StopCPUProfile
              (after (StartCPU failing_disk_host "prof" CPUTypeBuiltIn) world0))
           _ 3%nat _ (Some (HostError "close: input/output error")));
    reflexivity.
Defined.

Lemma pprof_StopCPUProfile_attached (f : File) (w : World) :
  cpu_profiling w = Some f ->
  pprof_StopCPUProfile w =
    (tt, set_cpu_profiling None
           (append_chunk f CPUSamples (record EvStopCPUProfile w))).
Proof. intros Hcpu. unfold pprof_StopCPUProfile. fields. by rewrite Hcpu. Qed.

Lemma trace_Stop_attached (f : File) (w : World) :
  tracing w = Some f ->
  trace_Stop w =
    (tt, set_tracing None (append_chunk f TraceEvents (record EvTraceStop w))).
Proof. intros Htr. unfold trace_Stop. fields. by rewrite Htr. Qed.

Section SessionSteps.
Variable h : Host.

Lemma os_MkdirAll_next dir perm (w w1 : World) r :
  os_MkdirAll h dir perm w = (r, w1) -> next_file w1 = next_file w.
Proof.
  intros E. apply os_MkdirAll_world in E. subst w1. by destruct r; fields.
Qed.

Lemma os_Create_handle path (w w1 : World) f :
  os_Create h path w = (inl f, w1) -> f = next_file w.
Proof. intros E. by apply os_Create_world in E as [-> _]. Qed.

Lemma pprof_StartCPUProfile_attaches f (w w1 : World) :
  pprof_StartCPUProfile h f w = (None, w1) -> cpu_profiling w1 = Some f.
Proof. intros E. apply pprof_StartCPUProfile_world in E. by subst w1. Qed.

Lemma trace_Start_attaches f (w w1 : World) :
  trace_Start h f w = (None, w1) -> tracing w1 = Some f.
Proof. intros E. apply trace_Start_world in E. by subst w1. Qed.

(** Stopping flushes into the file the profiler is attached to. *)
Lemma pprof_StopCPUProfile_flushes f path (w w1 : World) :
  cpu_profiling w = Some f ->
  open_files w !! f = Some path ->
  pprof_StopCPUProfile w = (tt, w1) ->
  files w1 = alter (fun content => content ++ [CPUSamples]) path (files w)
  /\ open_files w1 = open_files w
  /\ cpu_profiling w1 = None.
Proof.
  intros Hcpu Hopen E. rewrite (pprof_StopCPUProfile_attached f) in E by done.
  injection E as <-. fields.
  by rewrite open_files_append_chunk,
    (files_append_chunk_open f CPUSamples path).
Qed.

Lemma trace_Stop_flushes f path (w w1 : World) :
  tracing w = Some f ->
  open_files w !! f = Some path ->
  trace_Stop w = (tt, w1) ->
  files w1 = alter (fun content => content ++ [TraceEvents]) path (files w)
  /\ open_files w1 = open_files w
  /\ tracing w1 = None.
Proof.
  intros Htr Hopen E. rewrite (trace_Stop_attached f) in E by done.
  injection E as <-. fields.
  by rewrite open_files_append_chunk,
    (files_append_chunk_open f TraceEvents path).
Qed.

(** A successful export goes into the file behind the handle. *)
Lemma fgprof_stop_exports f path (w w1 : World) :
  open_files w !! f = Some path ->
  fgprof_stop h f w = Some (None, w1) ->
  files w1 = alter (fun content => content ++ [FGProfSamples]) path (files w)
  /\ open_files w1 = open_files w.
Proof.
  intros Hopen E. apply fgprof_stop_world in E as [_ ->].
  by rewrite open_files_append_chunk,
    (files_append_chunk_open f FGProfSamples path).
Qed.

Lemma fgprof_Start_frame f format (w : World) :
  files (after (fgprof_Start h f format) w) = files w
  /\ open_files (after (fgprof_Start h f format) w) = open_files w.
Proof. done. Qed.

End SessionSteps.

(** X10: a built-in session that is stopped right after it was started
    leaves the samples in cpu.pprof, flushed before the file was closed; the
    table of open files is as before the session and the profiler is
    detached.  Five host calls are made, in the order of the source. *)
Theorem StartCPU_builtin_session
        (h : Host) (dir : string) (w w1 w2 w3 w4 w5 : World) (f : File)
        (cerr : option error) :
  fresh_handle w ->
  os_MkdirAll h dir os_ModePerm w = (None, w1) ->
  os_Create h (filepath_Join h dir "cpu.pprof") w1 = (inl f, w2) ->
  pprof_StartCPUProfile h f w2 = (None, w3) ->
  pprof_StopCPUProfile w3 = (tt, w4) ->
  File_Close h f w4 = (cerr, w5) ->
  closeFn_BuiltIn h dir "cpu.pprof" f (after (StartCPU h dir CPUTypeBuiltIn) w) =
    (errors_Wrapf cerr ("close " +:+ filepath_Join h dir "cpu.pprof"), w5)
  /\ files w5 = <[filepath_Join h dir "cpu.pprof" := [CPUSamples]]> (files w)
  /\ open_files w5 = open_files w
  /\ cpu_profiling w5 = None
  /\ events_since w w5 =
       [EvMkdirAll dir os_ModePerm;
        EvCreate (filepath_Join h dir "cpu.pprof");
        EvStartCPUProfile f; EvStopCPUProfile; EvClose f].
Proof.
  intros Hfresh Hmk Hcr Hat Hst Hcl.
  split.
  { unfold after. rewrite (StartCPU_run_builtin _ _ _ _ _ _ _ Hmk Hcr Hat).
    by apply closeFn_BuiltIn_run with w4. }
  assert (Hev : events_since w w5 =
                [EvMkdirAll dir os_ModePerm;
                 EvCreate (filepath_Join h dir "cpu.pprof");
                 EvStartCPUProfile f; EvStopCPUProfile; EvClose f]) by history.
  pose proof (os_MkdirAll_next _ _ _ _ _ _ Hmk) as Nmk.
  pose proof (os_Create_handle _ _ _ _ _ Hcr) as Hf.
  pose proof (pprof_StartCPUProfile_attaches _ _ _ _ Hat) as Hcpu.
  apply os_MkdirAll_ok in Hmk as (_ & Fmk & Omk).
  apply os_Create_ok in Hcr as (_ & Fcr & Ocr).
  apply pprof_StartCPUProfile_frame in Hat as (_ & Fat & Oat).
  assert (Hopen : open_files w3 !! f = Some (filepath_Join h dir "cpu.pprof"))
    by (rewrite Oat, Ocr; apply lookup_insert_eq).
  destruct (pprof_StopCPUProfile_flushes _ _ _ _ Hcpu Hopen Hst)
    as (Fst & Ost & Cst).
  pose proof (File_Close_preserves cpu_profiling h fs_blind_cpu_profiling f w4)
    as Ccl.
  unfold after in Ccl. rewrite Hcl in Ccl. cbn [snd] in Ccl.
  apply File_Close_frame in Hcl as (_ & Fcl & Ocl).
  split; [by rewrite Fcl, Fst, Fat, Fcr, alter_insert_eq, Fmk |].
  split.
  { rewrite Ocl, Ost, Oat, Ocr, Omk, Hf, Nmk. by apply delete_insert_id. }
  split; [congruence | done].
Qed.

Lemma StartCPU_builtin_session_witness :
  closeFn_BuiltIn go_host "prof" "cpu.pprof" 3
    (after (StartCPU go_host "prof" CPUTypeBuiltIn) world0) =
    (errors_Wrapf None "close prof/cpu.pprof",
     after (closeFn_BuiltIn go_host "prof" "cpu.pprof" 3)
       (after (StartCPU go_host "prof" CPUTypeBuiltIn) world0))
  /\ files (after (closeFn_BuiltIn go_host "prof" "cpu.pprof" 3)
              (after (StartCPU go_host "prof" CPUTypeBuiltIn) world0)) =
       <["prof/cpu.pprof" := [CPUSamples]]> (files world0)
  /\ open_files (after (closeFn_BuiltIn go_host "prof" "cpu.pprof" 3)
                   (after (StartCPU go_host "prof" CPUTypeBuiltIn) world0)) =
       open_files world0
  /\ cpu_profiling (after (closeFn_BuiltIn go_host "prof" "cpu.pprof" 3)
                      (after (StartCPU go_host "prof" CPUTypeBuiltIn) world0)) =
       None
  /\ events_since world0
       (after (closeFn_BuiltIn go_host "prof" "cpu.pprof" 3)
          (after (StartCPU go_host "prof" CPUTypeBuiltIn) world0)) =
       [EvMkdirAll "prof" os_ModePerm; EvCreate "prof/cpu.pprof";
        EvStartCPUProfile 3; EvStopCPUProfile; EvClose 3].
Proof.
  apply (StartCPU_builtin_session go_host "prof" world0
           (after (os_MkdirAll go_host "prof" os_ModePerm) world0)
           (after (os_Create go_host "prof/cpu.pprof")
              (after (os_MkdirAll go_host "prof" os_ModePerm) world0))
           (after (StartCPU go_host "prof" CPUTypeBuiltIn) world0)
           (after pprof_StopCPUProfile
              (after (StartCPU go_host "prof" CPUTypeBuiltIn) world0))
           _ 3%nat None);
    reflexivity.
Defined.

(** ** CPU profiling: the fgprof session *)

(** X11: an fgprof session that is stopped right after it was started, with
    an export that succeeds, leaves the samples in cpu.fgprof.pprof, written
    before the file was closed; the table of open files is as before the
    session, the built-in profiler is not touched, and the stop function
    returns the close error (wrapped) or nil. *)
Theorem StartCPU_fgprof_session
        (h : Host) (dir : string) (w w1 w2 w4 w5 : World) (f : File)
        (cerr : option error) :
  fresh_handle w ->
  os_MkdirAll h dir os_ModePerm w = (None, w1) ->
  os_Create h (filepath_Join h dir "cpu.fgprof.pprof") w1 = (inl f, w2) ->
  fgprof_stop h f (after (StartCPU h dir CPUTypeFGProf) w) = Some (None, w4) ->
  File_Close h f w4 = (cerr, w5) ->
  closeFn_FGProf h dir "cpu.fgprof.pprof" f (fgprof_stop h f)
                 (after (StartCPU h dir CPUTypeFGProf) w) =
    Some (errors_Wrapf cerr
            ("close " +:+ filepath_Join h dir "cpu.fgprof.pprof"), w5)
  /\ files w5 =
       <[filepath_Join h dir "cpu.fgprof.pprof" := [FGProfSamples]]> (files w)
  /\ open_files w5 = open_files w
  /\ cpu_profiling w5 = cpu_profiling w
  /\ events_since w w5 =
       [EvMkdirAll dir os_ModePerm;
        EvCreate (filepath_Join h dir "cpu.fgprof.pprof");
        EvFGProfStart f; EvFGProfStop f; EvClose f].
Proof.
  intros Hfresh Hmk Hcr.
  assert (Hw3 : after (StartCPU h dir CPUTypeFGProf) w =
                after (fgprof_Start h f FormatPprof) w2).
  { unfold after at 1. by rewrite (StartCPU_run_fgprof _ _ _ _ _ _ Hmk Hcr). }
  rewrite Hw3. intros Hfl Hcl.
  split.
  { rewrite (closeFn_FGProf_run _ _ _ _ _ _ _ _ _ Hfl Hcl). by destruct cerr. }
  assert (Hev : events_since w w5 =
                [EvMkdirAll dir os_ModePerm;
                 EvCreate (filepath_Join h dir "cpu.fgprof.pprof");
                 EvFGProfStart f; EvFGProfStop f; EvClose f]).
  { pose proof (fgprof_Start_log h f FormatPprof w2) as Lfs. history. }
  pose proof (os_MkdirAll_next _ _ _ _ _ _ Hmk) as Nmk.
  pose proof (os_Create_handle _ _ _ _ _ Hcr) as Hf.
  pose proof (os_MkdirAll_preserves cpu_profiling h fs_blind_cpu_profiling
                dir os_ModePerm w) as Cmk.
  unfold after in Cmk. rewrite Hmk in Cmk. cbn [snd] in Cmk.
  pose proof (os_Create_preserves cpu_profiling h fs_blind_cpu_profiling
                (filepath_Join h dir "cpu.fgprof.pprof") w1) as Ccr.
  unfold after in Ccr. rewrite Hcr in Ccr. cbn [snd] in Ccr.
  pose proof (fgprof_Start_preserves cpu_profiling h fs_blind_cpu_profiling
                f FormatPprof fgprof_blind_cpu_profiling w2) as Cfs.
  pose proof (fgprof_stop_keeps cpu_profiling h fs_blind_cpu_profiling f _ _ _
                fgprof_blind_cpu_profiling Hfl) as Cfl.
  pose proof (File_Close_preserves cpu_profiling h fs_blind_cpu_profiling f w4)
    as Ccl.
  unfold after in Ccl. rewrite Hcl in Ccl. cbn [snd] in Ccl.
  apply os_MkdirAll_ok in Hmk as (_ & Fmk & Omk).
  apply os_Create_ok in Hcr as (_ & Fcr & Ocr).
  destruct (fgprof_Start_frame h f FormatPprof w2) as (Ffs & Ofs).
  assert (Hopen : open_files (after (fgprof_Start h f FormatPprof) w2) !! f =
                  Some (filepath_Join h dir "cpu.fgprof.pprof"))
    by (rewrite Ofs, Ocr; apply lookup_insert_eq).
  destruct (fgprof_stop_exports _ _ _ _ _ Hopen Hfl) as (Ffl & Ofl).
  apply File_Close_frame in Hcl as (_ & Fcl & Ocl).
  split; [by rewrite Fcl, Ffl, Ffs, Fcr, alter_insert_eq, Fmk |].
  split.
  { rewrite Ocl, Ofl, Ofs, Ocr, Omk, Hf, Nmk. by apply delete_insert_id. }
  split; [congruence | done].
Qed.

Lemma StartCPU_fgprof_session_witness :
  closeFn_FGProf go_host "prof" "cpu.fgprof.pprof" 3 (fgprof_stop go_host 3)
                 (after (StartCPU go_host "prof" CPUTypeFGProf) world0) =
    Some (errors_Wrapf None "close prof/cpu.fgprof.pprof",
          release 3
            (record (EvClose 3)
               (append_chunk 3 FGProfSamples
                  (set_fgprof_running ∅
                     (record (EvFGProfStop 3)
                        (after (StartCPU go_host "prof" CPUTypeFGProf)
                           world0))))))
  /\ files (release 3
              (record (EvClose 3)
                 (append_chunk 3 FGProfSamples
                    (set_fgprof_running ∅
                       (record (EvFGProfStop 3)
                          (after (StartCPU go_host "prof" CPUTypeFGProf)
                             world0)))))) =
       <["prof/cpu.fgprof.pprof" := [FGProfSamples]]> (files world0)
  /\ open_files (release 3
                   (record (EvClose 3)
                      (append_chunk 3 FGProfSamples
                         (set_fgprof_running ∅
                            (record (EvFGProfStop 3)
                               (after (StartCPU go_host "prof" CPUTypeFGProf)
                                  world0)))))) =
       open_files world0
  /\ cpu_profiling (release 3
                      (record (EvClose 3)
                         (append_chunk 3 FGProfSamples
                            (set_fgprof_running ∅
                               (record (EvFGProfStop 3)
                                  (after (StartCPU go_host "prof" CPUTypeFGProf)
                                     world0)))))) =
       cpu_profiling world0
  /\ events_since world0
       (release 3
          (record (EvClose 3)
             (append_chunk 3 FGProfSamples
                (set_fgprof_running ∅
                   (record (EvFGProfStop 3)
                      (after (StartCPU go_host "prof" CPUTypeFGProf)
                         world0)))))) =
       [EvMkdirAll "prof" os_ModePerm; EvCreate "prof/cpu.fgprof.pprof";
        EvFGProfStart 3; EvFGProfStop 3; EvClose 3].
Proof.
  apply (StartCPU_fgprof_session go_host "prof" world0
           (after (os_MkdirAll go_host "prof" os_ModePerm) world0)
           (after (os_Create go_host "prof/cpu.fgprof.pprof")
              (after (os_MkdirAll go_host "prof" os_ModePerm) world0))
           (append_chunk 3 FGProfSamples
              (set_fgprof_running ∅
                 (record (EvFGProfStop 3)
                    (after (StartCPU go_host "prof" CPUTypeFGProf) world0))))
           _ 3%nat None);
    reflexivity.
Defined.

(** ** CPU profiling: no handle is lost on an error *)

(** X12: whenever StartCPU returns an error, whatever the backend value and
    whichever call failed, the table of open files is the one it found: the
    file it may have opened has been closed again. *)
Theorem StartCPU_error_never_leaks
        (h : Host) (dir : string) (typ : CPUType) (w : World) :
  fresh_handle w ->
  snd (result (StartCPU h dir typ) w) <> None ->
  open_files (after (StartCPU h dir typ) w) = open_files w.
Proof.
  intros Hfresh Herr.
  destruct (StartCPU_cases h dir typ w)
    as [(_ & _ & ->)
       | (fileName & Hk &
          [[e Hmk] | [(w1 & e & Hmk & Hcr)
                     | (w1 & f & w2 & Hmk & Hcr &
                        [[_ Hrun] | [[_ (w3 & _ & Hrun)]
                                    | [_ (e & w3 & cerr & Hat & Hcl & _)]]])]])];
    [done | | | | |].
  - by apply os_MkdirAll_fail in Hmk as (_ & _ & ->).
  - apply os_MkdirAll_ok in Hmk as (_ & _ & Omk).
    apply os_Create_fail in Hcr as (_ & _ & Ocr). congruence.
  - unfold result in Herr. by rewrite Hrun in Herr.
  - unfold result in Herr. by rewrite Hrun in Herr.
  - apply os_MkdirAll_world in Hmk. subst w1.
    apply os_Create_world in Hcr as [Hf Hcr]. fields in Hf. subst f w2.
    apply pprof_StartCPUProfile_world in Hat. subst w3.
    apply File_Close_world in Hcl. rewrite Hcl. fields.
    by apply delete_insert_id.
Qed.

Lemma StartCPU_error_never_leaks_witness :
  open_files (after (StartCPU go_host "prof" CPUTypeBuiltIn) busy_world) =
    open_files busy_world.
Proof.
  apply (StartCPU_error_never_leaks go_host "prof" CPUTypeBuiltIn busy_world).
  - reflexivity.
  - discriminate.
Defined.

(** ** Execution trace: early errors, success and stop *)

(** X13: when the directory cannot be made StartTrace returns a nil stop
    function and the error of os.MkdirAll unchanged; no file is created and
    the tracer is not started. *)
Theorem StartTrace_mkdir_error
        (h : Host) (dir : string) (w w1 : World) (e : error) :
  os_MkdirAll h dir os_ModePerm w = (Some e, w1) ->
  StartTrace h dir w = ((None, Some e), w1)
  /\ events_since w w1 = [EvMkdirAll dir os_ModePerm]
  /\ files w1 = files w /\ open_files w1 = open_files w
  /\ tracing w1 = tracing w.
Proof.
  intros Hmk. split; [unfold StartTrace; run; by rewrite Hmk |].
  split; [history |]. apply os_MkdirAll_world in Hmk. subst. by fields.
Qed.

Lemma StartTrace_mkdir_error_witness :
  StartTrace readonly_host "prof" world0 =
    ((None, Some (HostError "mkdir: read-only file system")),
     after (StartTrace readonly_host "prof") world0)
  /\ events_since world0 (after (StartTrace readonly_host "prof") world0) =
       [EvMkdirAll "prof" os_ModePerm]
  /\ files (after (StartTrace readonly_host "prof") world0) = files world0
  /\ open_files (after (StartTrace readonly_host "prof") world0) =
       open_files world0
  /\ tracing (after (StartTrace readonly_host "prof") world0) = tracing world0.
Proof.
  apply (StartTrace_mkdir_error readonly_host "prof" world0
           (after (StartTrace readonly_host "prof") world0)
           (HostError "mkdir: read-only file system")).
  reflexivity.
Defined.

(** X14: when trace.out cannot be created StartTrace returns a nil stop
    function and the error of os.Create unchanged; trace.Start is not
    called, no handle is opened and no file has changed. *)
Theorem StartTrace_create_error
        (h : Host) (dir : string) (w w1 w2 : World) (e : error) :
  os_MkdirAll h dir os_ModePerm w = (None, w1) ->
  os_Create h (filepath_Join h dir "trace.out") w1 = (inr e, w2) ->
  StartTrace h dir w = ((None, Some e), w2)
  /\ events_since w w2 =
       [EvMkdirAll dir os_ModePerm; EvCreate (filepath_Join h dir "trace.out")]
  /\ files w2 = files w /\ open_files w2 = open_files w
  /\ tracing w2 = tracing w.
Proof.
  intros Hmk Hcr.
  split; [unfold StartTrace; run; rewrite Hmk; run; by rewrite Hcr |].
  split; [history |].
  apply os_MkdirAll_world in Hmk. apply os_Create_world in Hcr. subst.
  by fields.
Qed.

Lemma StartTrace_create_error_witness :
  StartTrace no_create_host "prof" world0 =
    ((None, Some (HostError "open: too many open files")),
     after (StartTrace no_create_host "prof") world0)
  /\ events_since world0 (after (StartTrace no_create_host "prof") world0) =
       [EvMkdirAll "prof" os_ModePerm; EvCreate "prof/trace.out"]
  /\ files (after (StartTrace no_create_host "prof") world0) = files world0
  /\ open_files (after (StartTrace no_create_host "prof") world0) =
       open_files world0
  /\ tracing (after (StartTrace no_create_host "prof") world0) = tracing world0.
Proof.
  apply (StartTrace_create_error no_create_host "prof" world0
           (after (os_MkdirAll no_create_host "prof" os_ModePerm) world0)
           (after (StartTrace no_create_host "prof") world0)
           (HostError "open: too many open files"));
    reflexivity.
Defined.

Lemma StartTrace_run (h : Host) (dir : string) (w w1 w2 w3 : World) (f : File) :
  os_MkdirAll h dir os_ModePerm w = (None, w1) ->
  os_Create h (filepath_Join h dir "trace.out") w1 = (inl f, w2) ->
  trace_Start h f w2 = (None, w3) ->
  StartTrace h dir w =
    ((Some (returns (closeFn_Trace h dir "trace.out" f)), None), w3).
Proof.
  intros Hmk Hcr Htr. unfold StartTrace. run. rewrite Hmk. run. rewrite Hcr.
  run. by rewrite Htr.
Qed.

Lemma closeFn_Trace_run (h : Host) (dir fileName : string) (f : File)
      (w w1 w2 : World) (cerr : option error) :
  trace_Stop w = (tt, w1) ->
  File_Close h f w1 = (cerr, w2) ->
  closeFn_Trace h dir fileName f w =
    (errors_Wrapf cerr ("close " +:+ filepath_Join h dir fileName), w2).
Proof.
  intros Hst Hcl. unfold closeFn_Trace. run. rewrite Hst. run. by rewrite Hcl.
Qed.



(** X16: the stop function of a trace session first stops the tracer, then
    closes the file.  It returns nil when the close succeeds and the close
    error wrapped with "close <path>" otherwise; either way the tracer is
    detached and the handle is given up. *)
Theorem StartTrace_stop
        (h : Host) (dir : string) (w w1 w2 w3 w4 w5 w6 : World) (f : File)
        (stop : Closer) (cerr : option error) :
  os_MkdirAll h dir os_ModePerm w = (None, w1) ->
  os_Create h (filepath_Join h dir "trace.out") w1 = (inl f, w2) ->
  StartTrace h dir w = ((Some stop, None), w3) ->
  trace_Stop w4 = (tt, w5) ->
  File_Close h f w5 = (cerr, w6) ->
  stop w4 =
    Some (match cerr with
          | None => None
          | Some c =>
              Some (Wrapf c ("close " +:+ filepath_Join h dir "trace.out"))
          end, w6)
  /\ events_since w4 w6 = [EvTraceStop; EvClose f]
  /\ tracing w6 = None
  /\ open_files w6 !! f = None.
Proof.
  intros Hmk Hcr Hstart Hst Hcl.
  assert (stop = returns (closeFn_Trace h dir "trace.out" f)) as ->.
  { destruct (trace_Start h f w2) as [[e|] w3'] eqn:Htr.
    - rewrite (StartTrace_run_refused _ _ _ _ _ _ _ _ Hmk Hcr Htr) in Hstart.
      discriminate.
    - rewrite (StartTrace_run _ _ _ _ _ _ _ Hmk Hcr Htr) in Hstart.
      by injection Hstart as <- _. }
  split.
  { unfold returns. rewrite (closeFn_Trace_run _ _ _ _ _ _ _ _ Hst Hcl).
    by destruct cerr. }
  split; [clear Hmk Hcr Hstart; history |].
  split.
  - pose proof (File_Close_preserves tracing h fs_blind_tracing f w5) as Hkeep.
    unfold after in Hkeep. rewrite Hcl in Hkeep. simpl in Hkeep.
    rewrite Hkeep. revert Hst. unfold trace_Stop. simpl.
    destruct (tracing w4) eqn:Htr; intros [= <-]; [done |].
    by simpl.
  - apply File_Close_frame in Hcl as (_ & _ & ->). apply lookup_delete_eq.
Qed.

Lemma StartTrace_stop_witness :
  returns (closeFn_Trace failing_disk_host "prof" "trace.out" 3)
    (after (StartTrace failing_disk_host "prof") world0) =
    Some (Some (Wrapf (HostError "close: input/output error")
                      "close prof/trace.out"),
          after (closeFn_Trace failing_disk_host "prof" "trace.out" 3)
            (after (StartTrace failing_disk_host "prof") world0))
  /\ events_since
       (after (StartTrace failing_disk_host "prof") world0)
       (after (closeFn_Trace failing_disk_host "prof" "trace.out" 3)
          (after (StartTrace failing_disk_host "prof") world0)) =
       [EvTraceStop; EvClose 3]
  /\ tracing
       (after (closeFn_Trace failing_disk_host "prof" "trace.out" 3)
          (after (StartTrace failing_disk_host "prof") world0)) = None
  /\ open_files
       (after (closeFn_Trace failing_disk_host "prof" "trace.out" 3)
          (after (StartTrace failing_disk_host "prof") world0)) !! 3%nat = None.
Proof.
  apply (StartTrace_stop failing_disk_host "prof" world0
           (after (os_MkdirAll failing_disk_host "prof" os_ModePerm) world0)
           (after (os_Create failing_disk_host "prof/trace.out")
              (after (os_MkdirAll failing_disk_host "prof" os_ModePerm) world0))
           (after (StartTrace failing_disk_host "prof") world0)
           (after (StartTrace failing_disk_host "prof") world0)
           (after trace_Stop (after (StartTrace failing_disk_host "prof") world0))
           _ 3%nat _ (Some (HostError "close: input/output error")));
    reflexivity.
Defined.

(** X17: a trace session that is stopped right after it was started leaves
    the events in trace.out, flushed before the file was closed; the table
    of open files is as before the session and the tracer is detached.
    Five host calls are made, in the order of the source. *)
Theorem StartTrace_session
        (h : Host) (dir : string) (w w1 w2 w3 w4 w5 : World) (f : File)
        (cerr : option error) :
  fresh_handle w ->
  os_MkdirAll h dir os_ModePerm w = (None, w1) ->
  os_Create h (filepath_Join h dir "trace.out") w1 = (inl f, w2) ->
  trace_Start h f w2 = (None, w3) ->
  trace_Stop w3 = (tt, w4) ->
  File_Close h f w4 = (cerr, w5) ->
  closeFn_Trace h dir "trace.out" f (after (StartTrace h dir) w) =
    (errors_Wrapf cerr ("close " +:+ filepath_Join h dir "trace.out"), w5)
  /\ files w5 = <[filepath_Join h dir "trace.out" := [TraceEvents]]> (files w)
  /\ open_files w5 = open_files w
  /\ tracing w5 = None
  /\ events_since w w5 =
       [EvMkdirAll dir os_ModePerm;
        EvCreate (filepath_Join h dir "trace.out");
        EvTraceStart f; EvTraceStop; EvClose f].
Proof.
  intros Hfresh Hmk Hcr Htr Hst Hcl.
  split.
  { unfold after. rewrite (StartTrace_run _ _ _ _ _ _ _ Hmk Hcr Htr).
    by apply closeFn_Trace_run with w4. }
  assert (Hev : events_since w w5 =
                [EvMkdirAll dir os_ModePerm;
                 EvCreate (filepath_Join h dir "trace.out");
                 EvTraceStart f; EvTraceStop; EvClose f]) by history.
  pose proof (os_MkdirAll_next _ _ _ _ _ _ Hmk) as Nmk.
  pose proof (os_Create_handle _ _ _ _ _ Hcr) as Hf.
  pose proof (trace_Start_attaches _ _ _ _ Htr) as Htracing.
  apply os_MkdirAll_ok in Hmk as (_ & Fmk & Omk).
  apply os_Create_ok in Hcr as (_ & Fcr & Ocr).
  apply trace_Start_frame in Htr as (_ & Ftr & Otr).
  assert (Hopen : open_files w3 !! f = Some (filepath_Join h dir "trace.out"))
    by (rewrite Otr, Ocr; apply lookup_insert_eq).
  destruct (trace_Stop_flushes _ _ _ _ Htracing Hopen Hst)
    as (Fst & Ost & Cst).
  pose proof (File_Close_preserves tracing h fs_blind_tracing f w4) as Ccl.
  unfold after in Ccl. rewrite Hcl in Ccl. cbn [snd] in Ccl.
  apply File_Close_frame in Hcl as (_ & Fcl & Ocl).
  split; [by rewrite Fcl, Fst, Ftr, Fcr, alter_insert_eq, Fmk |].
  split.
  { rewrite Ocl, Ost, Otr, Ocr, Omk, Hf, Nmk. by apply delete_insert_id. }
  split; [congruence | done].
Qed.

Lemma StartTrace_session_witness :
  closeFn_Trace go_host "prof" "trace.out" 3
    (after (StartTrace go_host "prof") world0) =
    (errors_Wrapf None "close prof/trace.out",
     after (closeFn_Trace go_host "prof" "trace.out" 3)
       (after (StartTrace go_host "prof") world0))
  /\ files (after (closeFn_Trace go_host "prof" "trace.out" 3)
              (after (StartTrace go_host "prof") world0)) =
       <["prof/trace.out" := [TraceEvents]]> (files world0)
  /\ open_files (after (closeFn_Trace go_host "prof" "trace.out" 3)
                   (after (StartTrace go_host "prof") world0)) =
       open_files world0
  /\ tracing (after (closeFn_Trace go_host "prof" "trace.out" 3)
                (after (StartTrace go_host "prof") world0)) = None
  /\ events_since world0
       (after (closeFn_Trace go_host "prof" "trace.out" 3)
          (after (StartTrace go_host "prof") world0)) =
       [EvMkdirAll "prof" os_ModePerm; EvCreate "prof/trace.out";
        EvTraceStart 3; EvTraceStop; EvClose 3].
Proof.
  apply (StartTrace_session go_host "prof" world0
           (after (os_MkdirAll go_host "prof" os_ModePerm) world0)
           (after (os_Create go_host "prof/trace.out")
              (after (os_MkdirAll go_host "prof" os_ModePerm) world0))
           (after (StartTrace go_host "prof") world0)
           (after trace_Stop (after (StartTrace go_host "prof") world0))
           _ 3%nat None);
    reflexivity.
Defined.

(** ** What the sessions never touch *)

(** X18: the sampling rate of the heap profiler is set by the two recording
    switches only: Heap, StartCPU, StartTrace and the three stop functions
    leave runtime.MemProfileRate as they found it, on every host, for every
    backend value and whatever fails. *)
Theorem sessions_keep_MemProfileRate
        (h : Host) (dir fileName : string) (typ : CPUType) (f : File)
        (w : World) :
  MemProfileRate (after (Heap h dir) w) = MemProfileRate w
  /\ MemProfileRate (after (StartCPU h dir typ) w) = MemProfileRate w
  /\ MemProfileRate (after (StartTrace h dir) w) = MemProfileRate w
  /\ MemProfileRate (after (closeFn_BuiltIn h dir fileName f) w) =
       MemProfileRate w
  /\ whenever_returns (closeFn_FGProf h dir fileName f (fgprof_stop h f)) w
       (fun w' => MemProfileRate w' = MemProfileRate w)
  /\ MemProfileRate (after (closeFn_Trace h dir fileName f) w) =
       MemProfileRate w.
Proof.
  split; [apply Heap_preserves; auto with frame |].
  split; [apply StartCPU_preserves; auto with frame |].
  split; [apply StartTrace_preserves; auto with frame |].
  split; [apply closeFn_BuiltIn_preserves; auto with frame |].
  split; [apply closeFn_FGProf_keeps; auto with frame |].
  apply closeFn_Trace_preserves; auto with frame.
Qed.

(** X19: the three facilities do not reach into each other.  Heap touches
    neither the CPU profiler nor the tracer; StartCPU and the stop function
    of a built-in session leave the tracer alone; StartTrace and its stop
    function leave the CPU profiler alone; and an fgprof session, start and
    stop, never attaches or detaches the built-in CPU profiler. *)
Theorem facilities_are_independent
        (h : Host) (dir fileName : string) (typ : CPUType) (f : File)
        (w : World) :
  (cpu_profiling (after (Heap h dir) w) = cpu_profiling w
   /\ tracing (after (Heap h dir) w) = tracing w)
  /\ (tracing (after (StartCPU h dir typ) w) = tracing w
      /\ tracing (after (closeFn_BuiltIn h dir fileName f) w) = tracing w)
  /\ (cpu_profiling (after (StartTrace h dir) w) = cpu_profiling w
      /\ cpu_profiling (after (closeFn_Trace h dir fileName f) w) =
           cpu_profiling w)
  /\ (cpu_profiling (after (StartCPU h dir CPUTypeFGProf) w) = cpu_profiling w
      /\ whenever_returns
           (closeFn_FGProf h dir fileName f (fgprof_stop h f)) w
           (fun w' => cpu_profiling w' = cpu_profiling w)
      /\ whenever_returns
           (closeFn_FGProf h dir fileName f (fgprof_stop h f)) w
           (fun w' => tracing w' = tracing w)).
Proof.
  split; [split; apply Heap_preserves; auto with frame |].
  split.
  { split; [apply StartCPU_preserves | apply closeFn_BuiltIn_preserves];
      auto with frame. }
  split.
  { split; [apply StartTrace_preserves | apply closeFn_Trace_preserves];
      auto with frame. }
  split; [apply StartCPU_FGProf_preserves; auto with frame |].
  split; apply closeFn_FGProf_keeps; auto with frame.
Qed.

(** ** Stop functions are not guarded *)

Lemma closeFn_BuiltIn_log (h : Host) (dir fileName : string) (f : File)
      (w : World) :
  log (after (closeFn_BuiltIn h dir fileName f) w) =
    log w ++ [EvStopCPUProfile; EvClose f].
Proof.
  unfold after.
  destruct (pprof_StopCPUProfile w) as [[] w1] eqn:Hst.
  destruct (File_Close h f w1) as [cerr w2] eqn:Hcl.
  rewrite (closeFn_BuiltIn_run _ _ _ _ _ _ _ _ Hst Hcl). cbn [snd].
  note_logs. logs.
Qed.

Lemma closeFn_Trace_log (h : Host) (dir fileName : string) (f : File)
      (w : World) :
  log (after (closeFn_Trace h dir fileName f) w) =
    log w ++ [EvTraceStop; EvClose f].
Proof.
  unfold after.
  destruct (trace_Stop w) as [[] w1] eqn:Hst.
  destruct (File_Close h f w1) as [cerr w2] eqn:Hcl.
  rewrite (closeFn_Trace_run _ _ _ _ _ _ _ _ Hst Hcl). cbn [snd].
  note_logs. logs.
Qed.

(** Closing a file does not restart an fgprof session. *)
Lemma File_Close_fgprof_running (h : Host) (f : File) (w w1 : World) r :
  File_Close h f w = (r, w1) -> fgprof_running w1 = fgprof_running w.
Proof. intros E. apply File_Close_world in E. by subst w1. Qed.

(** X20: nothing in a stop function remembers that it has run, and what a
    second call does is left to the backend.  The stop functions of a
    built-in session and of a trace session make their two host calls
    again, so Close is called twice on the same handle.  The stop function
    of an fgprof session, once it has returned, never returns from a second
    call: the backend's callback blocks, and Close is not called again. *)
Theorem stop_twice_repeats_or_blocks
        (h : Host) (dir fileName : string) (f : File) (w : World) :
  events_since w
    (after (closeFn_BuiltIn h dir fileName f)
       (after (closeFn_BuiltIn h dir fileName f) w)) =
    [EvStopCPUProfile; EvClose f; EvStopCPUProfile; EvClose f]
  /\ events_since w
       (after (closeFn_Trace h dir fileName f)
          (after (closeFn_Trace h dir fileName f) w)) =
       [EvTraceStop; EvClose f; EvTraceStop; EvClose f]
  /\ whenever_returns (closeFn_FGProf h dir fileName f (fgprof_stop h f)) w
       (fun w' =>
          closeFn_FGProf h dir fileName f (fgprof_stop h f) w' = None).
Proof.
  split.
  { apply events_since_app. rewrite !closeFn_BuiltIn_log.
    by rewrite <- app_assoc. }
  split.
  { apply events_since_app. rewrite !closeFn_Trace_log.
    by rewrite <- app_assoc. }
  unfold whenever_returns.
  destruct (closeFn_FGProf h dir fileName f (fgprof_stop h f) w)
    as [[r w2]|] eqn:Hstop; [| done].
  apply closeFn_FGProf_blocks. revert Hstop. unfold closeFn_FGProf.
  destruct (fgprof_stop h f w) as [[ferr w1]|] eqn:Hfl; [| done].
  destruct (File_Close h f w1) as [cerr w2'] eqn:Hcl.
  rewrite (errcapture_Do_run _ _ _ _ _ _ Hcl). intros [= _ <-].
  rewrite (File_Close_fgprof_running _ _ _ _ _ Hcl).
  by eapply fgprof_stop_stops.
Qed.

(** An fgprof session on a healthy disk: the first stop returns nil, the
    second never returns. *)
Example fgprof_stop_twice_on_go_host :
  fst <$> closeFn_FGProf go_host "prof" "cpu.fgprof.pprof" 3
            (fgprof_stop go_host 3)
            (after (StartCPU go_host "prof" CPUTypeFGProf) world0) =
    Some None
  /\ whenever_returns
       (closeFn_FGProf go_host "prof" "cpu.fgprof.pprof" 3
          (fgprof_stop go_host 3))
       (after (StartCPU go_host "prof" CPUTypeFGProf) world0)
       (fun w' =>
          closeFn_FGProf go_host "prof" "cpu.fgprof.pprof" 3
            (fgprof_stop go_host 3) w' = None).
Proof. split; vm_compute; reflexivity. Qed.
